(** * gphotos_meta: the matching and verification engine, embedded in Rocq

    Shallow embedding of [scanner.py], [metadata.py] and the command loops
    of [cli.py].  Python values are modelled as they are at run time:
    [str] as [string] (8-bit characters, ASCII case folding), [int] as [Z],
    [float] as IEEE-754 binary64 through the Standard Library's
    [spec_float], exceptions as an explicit result type. *)

From Stdlib Require Import List Bool Arith ZArith Lia Ascii String.
From Stdlib Require Import Floats.SpecFloat.
Import ListNotations.

Local Open Scope string_scope.
Local Open Scope list_scope.
Local Open Scope nat_scope.

(* ================================================================== *)
(** * Part I. The program                                              *)
(* ================================================================== *)

(** ** Strings *)

(** [str.lower()] on one character (ASCII letters only). *)
Definition lower_ascii (c : ascii) : ascii :=
  let n := nat_of_ascii c in
  if andb (65 <=? n) (n <=? 90) then ascii_of_nat (n + 32) else c.

Fixpoint lower (s : string) : string :=
  match s with
  | EmptyString => EmptyString
  | String c s' => String (lower_ascii c) (lower s')
  end.

(** Two characters match under [re.IGNORECASE]. *)
Definition ci_char_eq (a b : ascii) : bool :=
  Ascii.eqb (lower_ascii a) (lower_ascii b).

(** The newline character, which [$] tolerates at the very end. *)
Definition newline : ascii := ascii_of_nat 10.

(** [s[:n]] *)
Fixpoint take (n : nat) (s : string) : string :=
  match n, s with
  | S n', String c s' => String c (take n' s')
  | _, _ => EmptyString
  end.

(** [s[n:]] *)
Fixpoint drop (n : nat) (s : string) : string :=
  match n, s with
  | S n', String _ s' => drop n' s'
  | _, _ => s
  end.

(** [x in xs] for a collection of strings. *)
Definition str_in (x : string) (xs : list string) : bool :=
  existsb (String.eqb x) xs.

(** [s.rfind(".")]: index of the last dot, if any. *)
Fixpoint rfind_dot (s : string) : option nat :=
  match s with
  | EmptyString => None
  | String c s' =>
      match rfind_dot s' with
      | Some i => Some (S i)
      | None => if Ascii.eqb c "."%char then Some 0 else None
      end
  end.

(** ** Regular expressions of [JSON_PATTERNS]

    Every pattern of the table is an escaped literal followed by [$].
    [match_at_end lit s] says that the literal matches at the start of
    [s], ignoring case, and that [$] matches right after it: at the end of
    the string, or just before a newline that ends the string. *)
Fixpoint match_at_end (lit s : string) : bool :=
  match lit, s with
  | EmptyString, EmptyString => true
  | EmptyString, String c EmptyString => Ascii.eqb c newline
  | EmptyString, String _ (String _ _) => false
  | String _ _, EmptyString => false
  | String a lit', String b s' => ci_char_eq a b && match_at_end lit' s'
  end.

(** [re.search(lit + "$", s, re.IGNORECASE)]: the start of the leftmost
    match, [None] when there is none. *)
Fixpoint re_search (lit s : string) : option nat :=
  if match_at_end lit s then Some 0
  else match s with
       | EmptyString => None
       | String _ s' => option_map S (re_search lit s')
       end.

(** ** scanner.py: tables *)

(** The literal of each pattern, most specific first. *)
Definition JSON_PATTERNS : list string :=
  [ ".supplemental-metadata.json";
    ".supplemental-metada.json";
    ".supplemental-met.json";
    ".su.json" ].

Definition MEDIA_EXTENSIONS : list string :=
  [ ".jpg"; ".jpeg"; ".png"; ".gif"; ".webp"; ".heic"; ".heif"; ".bmp";
    ".tiff"; ".tif";
    ".mp4"; ".mov"; ".avi"; ".mkv"; ".webm"; ".3gp"; ".m4v" ].

Definition SKIP_FILES : list string := [ "Metadaten.json"; "metadata.json" ].

(** ** scanner.py: the filename matcher *)

Definition is_metadata_json (filename : string) : bool :=
  if str_in filename SKIP_FILES then false
  else existsb (fun pattern =>
                  match re_search pattern filename with
                  | Some _ => true
                  | None => false
                  end) JSON_PATTERNS.

(** The loop of [get_media_filename_from_json] over a pattern list. *)
Fixpoint first_match (patterns : list string) (json_filename : string)
  : option string :=
  match patterns with
  | [] => None
  | pattern :: rest =>
      match re_search pattern json_filename with
      | Some start => Some (take start json_filename)
      | None => first_match rest json_filename
      end
  end.

Definition get_media_filename_from_json (json_filename : string)
  : option string :=
  first_match JSON_PATTERNS json_filename.

(** [Path(filename).suffix] for a bare file name. *)
Definition suffix (filename : string) : string :=
  match rfind_dot filename with
  | Some i =>
      if andb (0 <? i) (i <? String.length filename - 1)
      then drop i filename else ""
  | None => ""
  end.

Definition is_media_file (filename : string) : bool :=
  str_in (lower (suffix filename)) MEDIA_EXTENSIONS.

(** ** Paths and the file system

    A [pathlib.Path] is its list of parts; file names hold no separator.
    The file system is what [scan_directory] asks of it. *)
Definition Path := list string.

Definition path_eq_dec : forall p q : Path, {p = q} + {p <> q} :=
  list_eq_dec string_dec.

(** [p in collection] *)
Definition path_in (p : Path) (l : list Path) : bool :=
  if in_dec path_eq_dec p l then true else false.

(** [p.name] *)
Definition name (p : Path) : string := last p "".

(** [p.parent] *)
Definition parent (p : Path) : Path := removelast p.

(** [p / child] for a child without separator: pathlib drops a part
    that is a single dot. *)
Definition joinpath (p : Path) (child : string) : Path :=
  if String.eqb child "." then p else p ++ [child].

Record FileSystem := {
  fs_exists : Path -> bool;          (* Path.exists() *)
  fs_is_dir : Path -> bool;          (* Path.is_dir() *)
  fs_is_file : Path -> bool;         (* Path.is_file() *)
  fs_iterdir : Path -> list Path;    (* list(directory.iterdir()) *)
  fs_rglob : Path -> list Path       (* list(directory.rglob("*")) *)
}.

(** ** scanner.py: the data model *)

Record MediaFilePair := {
  media_path : Path;
  json_path : Path
}.

Record ScanResult := {
  pairs : list MediaFilePair;
  orphan_jsons : list Path;
  orphan_media : list Path;
  skipped_jsons : list Path;
  errors : list (Path * string)
}.

(** [self.merge(other)], as the value [self] holds afterwards. *)
Definition merge (self other : ScanResult) : ScanResult :=
  {| pairs := pairs self ++ pairs other;
     orphan_jsons := orphan_jsons self ++ orphan_jsons other;
     orphan_media := orphan_media self ++ orphan_media other;
     skipped_jsons := skipped_jsons self ++ skipped_jsons other;
     errors := errors self ++ errors other |}.

(** ** scanner.py: [scan_directory] *)

(** [d[k] = v] on a dict kept in insertion order: a key already present
    keeps its place and takes the new value. *)
Fixpoint dict_set (d : list (Path * Path)) (k v : Path) : list (Path * Path) :=
  match d with
  | [] => [(k, v)]
  | (k', v') :: d' =>
      if path_eq_dec k k' then (k', v) :: d' else (k', v') :: dict_set d' k v
  end.

(** [s.add(x)]; the set is listed in insertion order (Python leaves the
    iteration order of a set open; nothing below depends on it). *)
Definition set_add (s : list Path) (x : Path) : list Path :=
  if path_in x s then s else s ++ [x].

(** The locals of the first loop. *)
Record Classified := {
  cl_skipped : list Path;                (* result.skipped_jsons *)
  json_files : list (Path * Path);       (* media_path -> json_path *)
  media_files : list Path
}.

(** [json_files = {}], [media_files = set()], a fresh [ScanResult]. *)
Definition scan_init : Classified :=
  {| cl_skipped := []; json_files := []; media_files := [] |}.

(** One iteration of "for entry in entries". *)
Definition classify (fs : FileSystem) (st : Classified) (entry : Path)
  : Classified :=
  if negb (fs_is_file fs entry) then st
  else
    let filename := name entry in
    if str_in filename SKIP_FILES then
      {| cl_skipped := cl_skipped st ++ [entry];
         json_files := json_files st;
         media_files := media_files st |}
    else if is_metadata_json filename then
      match get_media_filename_from_json filename with
      | Some media_name =>
          if String.eqb media_name "" then st       (* "if media_name:" *)
          else
            {| cl_skipped := cl_skipped st;
               json_files :=
                 dict_set (json_files st) (joinpath (parent entry) media_name)
                          entry;
               media_files := media_files st |}
      | None => st
      end
    else if is_media_file filename then
      {| cl_skipped := cl_skipped st;
         json_files := json_files st;
         media_files := set_add (media_files st) entry |}
    else st.

(** The locals of the second loop. *)
Record Matched := {
  m_pairs : list MediaFilePair;
  m_orphan_jsons : list Path;
  matched_media : list Path
}.

(** [matched_media = set()], no pair and no orphan yet. *)
Definition match_init : Matched :=
  {| m_pairs := []; m_orphan_jsons := []; matched_media := [] |}.

(** One iteration of "for media_path, json_path in json_files.items()". *)
Definition match_item (media : list Path) (st : Matched) (item : Path * Path)
  : Matched :=
  let '(mp, jp) := item in
  if path_in mp media then
    {| m_pairs := m_pairs st ++ [{| media_path := mp; json_path := jp |}];
       m_orphan_jsons := m_orphan_jsons st;
       matched_media := set_add (matched_media st) mp |}
  else
    {| m_pairs := m_pairs st;
       m_orphan_jsons := m_orphan_jsons st ++ [jp];
       matched_media := matched_media st |}.

(** One iteration of "for media_path in media_files". *)
Definition orphan_step (matched : list Path) (acc : list Path) (mp : Path)
  : list Path :=
  if negb (path_in mp matched) then acc ++ [mp] else acc.

Definition scan_directory (fs : FileSystem) (directory : Path)
  (recursive : bool) : ScanResult :=
  if negb (fs_exists fs directory) then
    {| pairs := []; orphan_jsons := []; orphan_media := [];
       skipped_jsons := [];
       errors := [(directory, "Directory does not exist")] |}
  else if negb (fs_is_dir fs directory) then
    {| pairs := []; orphan_jsons := []; orphan_media := [];
       skipped_jsons := [];
       errors := [(directory, "Path is not a directory")] |}
  else
    let entries :=
      if recursive then fs_rglob fs directory else fs_iterdir fs directory in
    let c := fold_left (classify fs) entries scan_init in
    let m := fold_left (match_item (media_files c)) (json_files c) match_init in
    {| pairs := m_pairs m;
       orphan_jsons := m_orphan_jsons m;
       orphan_media :=
         fold_left (orphan_step (matched_media m)) (media_files c) [];
       skipped_jsons := cl_skipped c;
       errors := [] |}.

(** Every path a scan result files somewhere: the media and the sidecar
    of each pair, the orphans of both kinds, the skipped album files. *)
Definition all_paths (r : ScanResult) : list Path :=
  map media_path (pairs r) ++ map json_path (pairs r)
  ++ orphan_jsons r ++ orphan_media r ++ skipped_jsons r.

(** A directory [/t] as a file system: [files] are its regular files. *)
Definition flat_dir (files : list string) : FileSystem :=
  {| fs_exists := fun p =>
       if path_eq_dec p ["/"; "t"] then true
       else path_in p (map (fun f => ["/"; "t"; f]) files);
     fs_is_dir := fun p => if path_eq_dec p ["/"; "t"] then true else false;
     fs_is_file := fun p => path_in p (map (fun f => ["/"; "t"; f]) files);
     fs_iterdir := fun p =>
       if path_eq_dec p ["/"; "t"]
       then map (fun f => ["/"; "t"; f]) files else [];
     fs_rglob := fun p =>
       if path_eq_dec p ["/"; "t"]
       then map (fun f => ["/"; "t"; f]) files else [] |}.

(** ** Python values

    [float] is IEEE-754 binary64: [spec_float] at precision 53 and
    exponent bound 1024, with the Standard Library's operations. *)
Definition pyfloat := spec_float.
Definition prec : Z := 53.
Definition emax : Z := 1024.

Definition fzero : pyfloat := S754_zero false.
Definition fone : pyfloat := SFone prec emax.
Definition fsub : pyfloat -> pyfloat -> pyfloat := SFsub prec emax.
Definition fabs : pyfloat -> pyfloat := SFabs.
Definition fopp : pyfloat -> pyfloat := SFopp.
Definition feqb : pyfloat -> pyfloat -> bool := SFeqb.
Definition fltb : pyfloat -> pyfloat -> bool := SFltb.
Definition fleb : pyfloat -> pyfloat -> bool := SFleb.

(** The integer [z] rounded to the nearest float, ties to even; too large
    an integer rounds to an infinity. *)
Definition float_of_Z (z : Z) : pyfloat := binary_normalize prec emax z 0 false.

(** The literal [m / 10^k] as Python reads it (for [m] and [10^k] below
    [2^53] both are exact, and the division rounds correctly). *)
Definition float_lit (m : Z) (k : nat) : pyfloat :=
  SFdiv prec emax (float_of_Z m) (float_of_Z (10 ^ Z.of_nat k)).

Inductive exn :=
| AttributeError | TypeError | ValueError | OverflowError | OSError | KeyError.

(** A Python expression returns or raises. *)
Inductive result (A : Type) :=
| Ok (a : A)
| Raise (e : exn).
Arguments Ok {A} a.
Arguments Raise {A} e.

Definition bind {A B : Type} (r : result A) (k : A -> result B) : result B :=
  match r with
  | Ok a => k a
  | Raise e => Raise e
  end.

Notation "x <- r ;; k" := (bind r (fun x => k))
  (at level 61, r at next level, right associativity).

(** What [json.load] returns, and what the tagging engine hands back. *)
#[warnings="-register-all"]
Inductive pyval :=
| PNone
| PBool (b : bool)
| PInt (z : Z)
| PFloat (f : pyfloat)
| PStr (s : string)
| PList (l : list pyval)
| PDict (d : list (string * pyval)).

(** [bool(v)] *)
Definition truthy (v : pyval) : bool :=
  match v with
  | PNone => false
  | PBool b => b
  | PInt z => negb (Z.eqb z 0)
  | PFloat f => negb (feqb f fzero)
  | PStr s => negb (String.eqb s "")
  | PList l => match l with [] => false | _ => true end
  | PDict d => match d with [] => false | _ => true end
  end.

(** [a or b] *)
Definition py_or (a b : pyval) : pyval := if truthy a then a else b.

Fixpoint lookup (d : list (string * pyval)) (key : string) : option pyval :=
  match d with
  | [] => None
  | (k, v) :: d' => if String.eqb k key then Some v else lookup d' key
  end.

(** [d.get(key, default)] on a dict. *)
Definition dict_get (d : list (string * pyval)) (key : string) (default : pyval)
  : pyval :=
  match lookup d key with
  | Some v => v
  | None => default
  end.

(** [v.get(key, default)]: only a dict has [get]. *)
Definition py_get (v : pyval) (key : string) (default : pyval) : result pyval :=
  match v with
  | PDict d => Ok (dict_get d key default)
  | _ => Raise AttributeError
  end.

(** [v != 0.0] *)
Definition ne_zero (v : pyval) : bool :=
  match v with
  | PBool b => b
  | PInt z => negb (Z.eqb z 0)
  | PFloat f => negb (feqb f fzero)
  | _ => true
  end.

(** [v is not None] *)
Definition is_not_none (v : pyval) : bool :=
  match v with
  | PNone => false
  | _ => true
  end.

(** [int(f)] for a float: truncation toward zero. *)
Definition int_of_float (f : pyfloat) : result Z :=
  match f with
  | S754_zero _ => Ok 0%Z
  | S754_infinity _ => Raise OverflowError
  | S754_nan => Raise ValueError
  | S754_finite s m e =>
      let mag := match e with
                 | Zneg p => Z.shiftr (Zpos m) (Zpos p)
                 | _ => Z.shiftl (Zpos m) e
                 end in
      Ok (if s then Z.opp mag else mag)
  end.

(** The whitespace [str.strip] removes, among 8-bit characters. *)
Definition is_space (c : ascii) : bool :=
  let n := nat_of_ascii c in
  ((9 <=? n) && (n <=? 13)) || ((28 <=? n) && (n <=? 32))
  || (n =? 133) || (n =? 160).

Fixpoint lstrip (s : string) : string :=
  match s with
  | String c s' => if is_space c then lstrip s' else s
  | EmptyString => EmptyString
  end.

Fixpoint rstrip (s : string) : string :=
  match s with
  | String c s' =>
      match rstrip s' with
      | EmptyString => if is_space c then EmptyString else String c EmptyString
      | t => String c t
      end
  | EmptyString => EmptyString
  end.

(** [s.strip()] *)
Definition strip (s : string) : string := rstrip (lstrip s).

(** [sub in s] for strings. *)
Fixpoint str_contains (sub s : string) : bool :=
  if String.prefix sub s then true
  else match s with
       | EmptyString => false
       | String _ s' => str_contains sub s'
       end.

(** The built-ins that are taken as given: parsing of numbers out of
    strings, the calendar, and the printing of values. *)
Record PyBuiltins := {
  float_of_str : string -> option pyfloat;   (* float(s); None: ValueError *)
  int_of_str : string -> option Z;           (* int(s); None: ValueError *)
  fromtimestamp : Z -> result Z;             (* datetime.fromtimestamp(ts, tz=utc),
                                                a datetime kept as its epoch seconds *)
  strftime : Z -> string;                    (* dt.strftime("%Y:%m:%d %H:%M:%S") *)
  str_of : pyval -> string;                  (* str(v) of a value that is no str *)
  str_of_float : pyfloat -> string;          (* str(f) *)
  str_of_path : Path -> string;              (* str(path) *)
  str_of_nat : nat -> string                 (* str(n) *)
}.

(** [float(v)] *)
Definition py_float (B : PyBuiltins) (v : pyval) : result pyfloat :=
  match v with
  | PBool b => Ok (if b then fone else fzero)
  | PInt z =>
      match float_of_Z z with
      | S754_infinity _ => Raise OverflowError
      | f => Ok f
      end
  | PFloat f => Ok f
  | PStr s =>
      match float_of_str B s with
      | Some f => Ok f
      | None => Raise ValueError
      end
  | PNone | PList _ | PDict _ => Raise TypeError
  end.

(** [int(v)] *)
Definition py_int (B : PyBuiltins) (v : pyval) : result Z :=
  match v with
  | PBool b => Ok (if b then 1%Z else 0%Z)
  | PInt z => Ok z
  | PFloat f => int_of_float f
  | PStr s =>
      match int_of_str B s with
      | Some z => Ok z
      | None => Raise ValueError
      end
  | PNone | PList _ | PDict _ => Raise TypeError
  end.

(** [str(v)] *)
Definition py_str (B : PyBuiltins) (v : pyval) : string :=
  match v with
  | PStr s => s
  | _ => str_of B v
  end.

(** [key in v] for a string [key]. *)
Definition py_contains (v : pyval) (key : string) : result bool :=
  match v with
  | PDict d => Ok (match lookup d key with Some _ => true | None => false end)
  | PStr s => Ok (str_contains key s)
  | PList l =>
      Ok (existsb (fun x => match x with
                            | PStr s => String.eqb s key
                            | _ => false
                            end) l)
  | PNone | PBool _ | PInt _ | PFloat _ => Raise TypeError
  end.

(** [v[key]] for a string [key]. *)
Definition py_getitem (v : pyval) (key : string) : result pyval :=
  match v with
  | PDict d => match lookup d key with
               | Some x => Ok x
               | None => Raise KeyError
               end
  | _ => Raise TypeError
  end.

(** [a == b] where [b] is a str. *)
Definition py_eq_str (a : pyval) (b : string) : bool :=
  match a with
  | PStr s => String.eqb s b
  | _ => false
  end.

(** ** metadata.py: the data model *)

Record GoogleMetadata := {
  title : pyval;
  description : option string;
  photo_taken_time : option Z;
  creation_time : option Z;
  latitude : option pyfloat;
  longitude : option pyfloat;
  altitude : option pyfloat;
  favorited : pyval
}.

Definition has_gps (md : GoogleMetadata) : bool :=
  match latitude md, longitude md with
  | Some la, Some lo => negb (feqb la fzero) || negb (feqb lo fzero)
  | _, _ => false
  end.


Record VerificationResult := {
  success : bool;
  date_match : bool;
  gps_match : bool;
  description_match : bool;
  message : string
}.

(** ** metadata.py: [parse_google_json] *)

(** The try block around one timestamp: [ValueError] and [OSError] leave
    the field unset, anything else propagates. *)
Definition parse_timestamp (B : PyBuiltins) (time_obj : pyval)
  : result (option Z) :=
  present <- py_contains time_obj "timestamp" ;;
  if present then
    raw <- py_getitem time_obj "timestamp" ;;
    match bind (py_int B raw) (fromtimestamp B) with
    | Ok dt => Ok (Some dt)
    | Raise ValueError | Raise OSError => Ok None
    | Raise e => Raise e
    end
  else Ok None.

(** The GPS block: the three fields it leaves in the record. *)
Definition parse_gps (B : PyBuiltins) (lat lon alt : pyval)
  : result (option pyfloat * option pyfloat * option pyfloat) :=
  if is_not_none lat && is_not_none lon then
    if ne_zero lat || ne_zero lon then
      la <- py_float B lat ;;
      lo <- py_float B lon ;;
      if is_not_none alt && ne_zero alt then
        al <- py_float B alt ;;
        Ok (Some la, Some lo, Some al)
      else Ok (Some la, Some lo, None)
    else Ok (None, None, None)
  else Ok (None, None, None).

(** [loaded] is what [json.load] gave for the file, [None] when the open
    or the decoding raised. *)
Definition parse_google_json (B : PyBuiltins) (loaded : option pyval)
  : result (option GoogleMetadata) :=
  match loaded with
  | None => Ok None
  | Some data =>
      title_v <- py_get data "title" PNone ;;
      desc <- py_get data "description" (PStr "") ;;
      description_v <-
        (if truthy desc then
           match desc with
           | PStr s => Ok (if String.eqb (strip s) "" then None
                           else Some (strip s))
           | _ => Raise AttributeError
           end
         else Ok None) ;;
      photo_time <- py_get data "photoTakenTime" (PDict []) ;;
      photo_taken_time_v <- parse_timestamp B photo_time ;;
      creation <- py_get data "creationTime" (PDict []) ;;
      creation_time_v <- parse_timestamp B creation ;;
      geo_data <- py_get data "geoData" (PDict []) ;;
      lat <- py_get geo_data "latitude" PNone ;;
      lon <- py_get geo_data "longitude" PNone ;;
      alt <- py_get geo_data "altitude" PNone ;;
      gps <- parse_gps B lat lon alt ;;
      favorited_v <- py_get data "favorited" (PBool false) ;;
      Ok (Some {| title := title_v;
                  description := description_v;
                  photo_taken_time := photo_taken_time_v;
                  creation_time := creation_time_v;
                  latitude := fst (fst gps);
                  longitude := snd (fst gps);
                  altitude := snd gps;
                  favorited := favorited_v |})
  end.

(** ** metadata.py: the tagging engine and [write_metadata_to_file] *)

(** [sep.join(parts)] *)
Fixpoint join (sep : string) (parts : list string) : string :=
  match parts with
  | [] => ""
  | [x] => x
  | x :: rest => (x ++ sep ++ join sep rest)%string
  end.

(** The tag dictionary of one file. *)
Definition tags := list (string * pyval).

(** [actual.get(key)] *)
Definition tag (actual : tags) (key : string) : pyval := dict_get actual key PNone.

(** The engine and the files behind it, over a state [W] of the disk. *)
Record Engine (W : Type) := {
  set_tags : W -> Path -> tags -> W * option string;  (* et.set_tags; Some e: raised e *)
  get_metadata : W -> Path -> option tags;            (* read_metadata_from_file *)
  load_json : W -> Path -> option pyval;              (* open and json.load; None: raised *)
  unlink : W -> Path -> W * option string;            (* path.unlink(); Some e: OSError e *)
  file_system : W -> FileSystem
}.
Arguments set_tags {W}.
Arguments get_metadata {W}.
Arguments load_json {W}.
Arguments unlink {W}.
Arguments file_system {W}.

(** [path.exists()] *)
Definition path_exists {W : Type} (E : Engine W) (s : W) (path : Path) : bool :=
  fs_exists (file_system E s) path.

(** The [params] dict of [write_metadata_to_file], in insertion order. *)
Definition build_params (B : PyBuiltins) (metadata : GoogleMetadata) : tags :=
  (match photo_taken_time metadata with
   | Some dt =>
       let dt_str := strftime B dt in
       [ ("DateTimeOriginal", PStr dt_str); ("CreateDate", PStr dt_str);
         ("ModifyDate", PStr dt_str);
         ("SubSecTimeOriginal", PStr "00"); ("SubSecCreateDate", PStr "00");
         ("SubSecModifyDate", PStr "00") ]
   | None => []
   end)
  ++ (if has_gps metadata then
        match latitude metadata, longitude metadata with
        | Some la, Some lo =>
            [ ("GPSLatitude", PFloat la); ("GPSLongitude", PFloat lo);
              ("GPSLatitudeRef", PStr (if fleb fzero la then "N" else "S"));
              ("GPSLongitudeRef", PStr (if fleb fzero lo then "E" else "W")) ]
            ++ match altitude metadata with
               | Some al =>
                   [ ("GPSAltitude", PFloat (fabs al));
                     ("GPSAltitudeRef", PInt (if fleb fzero al then 0 else 1)) ]
               | None => []
               end
        | _, _ => []
        end
      else [])
  ++ (match description metadata with
      | Some d =>
          if String.eqb d "" then []
          else [ ("ImageDescription", PStr d); ("XMP:Description", PStr d);
                 ("IPTC:Caption-Abstract", PStr d) ]
      | None => []
      end).

Definition write_metadata_to_file {W : Type} (E : Engine W) (B : PyBuiltins)
  (s : W) (path : Path) (metadata : GoogleMetadata) : W * (bool * string) :=
  if negb (path_exists E s path) then
    (s, (false, ("File not found: " ++ str_of_path B path)%string))
  else
    let params := build_params B metadata in
    match params with
    | [] => (s, (true, "No metadata to write"))
    | _ =>
        match set_tags E s path params with
        | (s', None) =>
            (s', (true, ("Wrote " ++ str_of_nat B (List.length params)
                         ++ " metadata fields")%string))
        | (s', Some e) => (s', (false, ("ExifTool error: " ++ e)%string))
        end
    end.

(** ** metadata.py: [verify_metadata] *)

(** The literal [0.0001]. *)
Definition tolerance : pyfloat := float_lit 1 4.

(** The date block: the flag and the issues it appends. *)
Definition verify_date (B : PyBuiltins) (actual : tags) (expected : GoogleMetadata)
  : bool * list string :=
  match photo_taken_time expected with
  | Some dt =>
      let expected_dt := strftime B dt in
      let actual_dt := py_or (tag actual "EXIF:DateTimeOriginal")
                             (tag actual "DateTimeOriginal") in
      if truthy actual_dt then
        let actual_dt_clean := take 19 (py_str B actual_dt) in
        if String.eqb actual_dt_clean expected_dt then (true, [])
        else (false, [("Date mismatch: expected " ++ expected_dt ++ ", got "
                       ++ actual_dt_clean)%string])
      else (false, ["DateTimeOriginal not found in file"])
  | None => (true, [])
  end.

(** The GPS block; its try catches [ValueError] and [TypeError] only. *)
Definition verify_gps (B : PyBuiltins) (actual : tags) (expected : GoogleMetadata)
  : result (bool * list string) :=
  if has_gps expected then
    match latitude expected, longitude expected with
    | Some ela, Some elo =>
        let actual_lat := py_or (tag actual "EXIF:GPSLatitude")
                                (tag actual "GPSLatitude") in
        let actual_lon := py_or (tag actual "EXIF:GPSLongitude")
                                (tag actual "GPSLongitude") in
        if is_not_none actual_lat && is_not_none actual_lon then
          match (alat <- py_float B actual_lat ;;
                 alon <- py_float B actual_lon ;;
                 Ok (alat, alon)) with
          | Ok (alat, alon) =>
              let lat_diff := fabs (fsub alat (fabs ela)) in
              let lon_diff := fabs (fsub alon (fabs elo)) in
              if fltb lat_diff tolerance && fltb lon_diff tolerance
              then Ok (true, [])
              else Ok (false,
                       [("GPS mismatch: expected (" ++ str_of_float B ela ++ ", "
                         ++ str_of_float B elo ++ "), got ("
                         ++ py_str B actual_lat ++ ", " ++ py_str B actual_lon
                         ++ ")")%string])
          | Raise ValueError | Raise TypeError =>
              Ok (false, ["Could not parse GPS coordinates"])
          | Raise e => Raise e
          end
        else Ok (false, ["GPS coordinates not found in file"])
    | _, _ => Ok (true, [])
    end
  else Ok (true, []).

(** The description block. *)
Definition verify_description (actual : tags) (expected : GoogleMetadata)
  : bool * list string :=
  match description expected with
  | Some d =>
      if String.eqb d "" then (true, [])
      else
        let actual_desc :=
          py_or (py_or (py_or (tag actual "EXIF:ImageDescription")
                              (tag actual "ImageDescription"))
                       (tag actual "XMP:Description"))
                (tag actual "IPTC:Caption-Abstract") in
        let matched := py_eq_str actual_desc d in
        (matched,
         if negb matched && truthy actual_desc then ["Description mismatch"]
         else [])
  | None => (true, [])
  end.

(** [actual] is what [read_metadata_from_file] returned. *)
Definition verify_metadata (B : PyBuiltins) (actual : option tags)
  (expected : GoogleMetadata) : result VerificationResult :=
  match actual with
  | None =>
      Ok {| success := false; date_match := false; gps_match := false;
            description_match := false;
            message := "Could not read metadata from file" |}
  | Some actual =>
      let d := verify_date B actual expected in
      g <- verify_gps B actual expected ;;
      let c := verify_description actual expected in
      let issues := snd d ++ snd g ++ snd c in
      Ok {| success := fst d && fst g && fst c;
            date_match := fst d;
            gps_match := fst g;
            description_match := fst c;
            message := match issues with
                       | [] => "All metadata verified"
                       | _ => join "; " issues
                       end |}
  end.

(** ** metadata.py: [MetadataProcessor.process_file] *)

(** The issues of a linked pair, image side first. *)
Definition linked_issues (verification video_verification : VerificationResult)
  : list string :=
  (if negb (date_match verification) then ["image date"] else [])
  ++ (if negb (gps_match verification) then ["image GPS"] else [])
  ++ (if negb (description_match verification) then ["image description"] else [])
  ++ (if negb (date_match video_verification) then ["video date"] else [])
  ++ (if negb (gps_match video_verification) then ["video GPS"] else [])
  ++ (if negb (description_match video_verification)
      then ["video description"] else []).

(** The block under "if video_path:" in the verification of
    [process_file]: what [verification] holds after it. *)
Definition combine_linked (verification video_verification : VerificationResult)
  : VerificationResult :=
  let ok := success verification && success video_verification in
  {| success := ok;
     date_match := date_match verification && date_match video_verification;
     gps_match := gps_match verification && gps_match video_verification;
     description_match :=
       description_match verification && description_match video_verification;
     message :=
       if negb ok then
         ("Verification failed on: "
          ++ join ", " (linked_issues verification video_verification))%string
       else "All metadata verified (image and video)" |}.

(** [process_file] from "verification = None" on. *)
Definition verify_phase {W : Type} (E : Engine W) (B : PyBuiltins) (s : W)
  (media : Path) (video_path : option Path) (metadata : GoogleMetadata)
  (written : string) (verify : bool)
  : result (bool * string * option VerificationResult) :=
  if verify then
    verification <- verify_metadata B (get_metadata E s media) metadata ;;
    verification <-
      match video_path with
      | Some vp =>
          video_verification <-
            verify_metadata B (get_metadata E s vp) metadata ;;
          Ok (combine_linked verification video_verification)
      | None => Ok verification
      end ;;
    if negb (success verification) then
      Ok (false, ("Verification failed: " ++ message verification)%string,
          Some verification)
    else Ok (true, written, Some verification)
  else Ok (true, written, None).

(** [et_open] says that the processor is inside its with statement. *)
Definition process_file {W : Type} (E : Engine W) (B : PyBuiltins)
  (et_open : bool) (s : W) (media json : Path) (verify : bool)
  (video_path : option Path)
  : W * result (bool * string * option VerificationResult) :=
  if negb et_open then
    (s, Ok (false, "MetadataProcessor not initialized (use with statement)",
            None))
  else
    match parse_google_json B (load_json E s json) with
    | Raise e => (s, Raise e)
    | Ok None =>
        (s, Ok (false, ("Failed to parse JSON: " ++ str_of_path B json)%string,
                None))
    | Ok (Some metadata) =>
        let '(s1, (ok, written)) :=
          write_metadata_to_file E B s media metadata in
        if negb ok then (s1, Ok (false, written, None))
        else
          match video_path with
          | Some vp =>
              let '(s2, (video_ok, video_message)) :=
                write_metadata_to_file E B s1 vp metadata in
              if negb video_ok then
                (s2, Ok (false, ("Image: " ++ written ++ "; Video: "
                                 ++ video_message)%string, None))
              else
                (s2, verify_phase E B s2 media video_path metadata
                       (written ++ "; Video: " ++ video_message)%string verify)
          | None =>
              (s1, verify_phase E B s1 media video_path metadata written verify)
          end
    end.

(** ** cli.py: the commands

    The console is a log of reporter calls; [unlinked] lists the paths
    whose [unlink()] returned. *)
Record ProcessingStats := {
  total : nat;
  successful : nat;
  failed : nat;
  skipped : nat;
  verified : nat;
  verification_failed : nat;
  failures : list (Path * string);
  verification_failures : list (Path * string)
}.

Inductive event :=
| print_error (m : string)
| print_warning (m : string)
| print_info (m : string)
| print_scan_stats
| print_extension_breakdown
| print_directory_breakdown
| print_sample_files
| print_processing_results (stats : ProcessingStats)
| print_cleanup_results (deleted failed skipped : nat).

Record Args := {
  arg_directory : Path;       (* args.directory.resolve() *)
  arg_recursive : bool;
  arg_dry_run : bool;
  arg_no_verify : bool;
  arg_yes : bool
}.

Record Console := {
  exiftool_available : bool * string;   (* check_exiftool_available() *)
  confirm_action : string -> bool       (* reporter.confirm_action(message) *)
}.

Record Run (W : Type) := {
  world : W;
  console : list event;
  unlinked : list Path
}.
Arguments world {W}.
Arguments console {W}.
Arguments unlinked {W}.

Definition say {W : Type} (r : Run W) (e : event) : Run W :=
  {| world := world r; console := console r ++ [e]; unlinked := unlinked r |}.

Definition start {W : Type} (s : W) : Run W :=
  {| world := s; console := []; unlinked := [] |}.

(** [getattr(pair, attr)] for an attribute that would hold a path: a
    [MediaFilePair] has the fields [media_path] and [json_path] (and the
    string properties [media_name] and [relative_dir]); any other name
    raises [AttributeError]. *)
Definition pair_getattr (pair : MediaFilePair) (attr : string)
  : result (option Path) :=
  if String.eqb attr "media_path" then Ok (Some (media_path pair))
  else if String.eqb attr "json_path" then Ok (Some (json_path pair))
  else Raise AttributeError.

(** A for loop whose body may raise. *)
Fixpoint for_each {A St : Type} (body : St -> A -> St * option exn)
  (items : list A) (st : St) : St * option exn :=
  match items with
  | [] => (st, None)
  | x :: rest =>
      match body st x with
      | (st', None) => for_each body rest st'
      | (st', Some e) => (st', Some e)
      end
  end.

(** [str(e)]: the text of the [AttributeError] is the interpreter's; the
    other exceptions are shown by their class only. *)
Definition str_of_exn (e : exn) : string :=
  match e with
  | AttributeError => "'MediaFilePair' object has no attribute 'video_path'"
  | TypeError => "TypeError"
  | ValueError => "ValueError"
  | OverflowError => "OverflowError"
  | OSError => "OSError"
  | KeyError => "KeyError"
  end.

Definition cmd_stats {W : Type} (E : Engine W) (B : PyBuiltins) (args : Args)
  (s : W) : Run W * result nat :=
  let directory := arg_directory args in
  let r := start s in
  if negb (path_exists E s directory) then
    (say r (print_error ("Directory not found: " ++ str_of_path B directory)),
     Ok 1)
  else
    let r := say r (print_info ("Scanning directory: "
                                ++ str_of_path B directory)) in
    let r := say r print_scan_stats in
    let r := say r print_extension_breakdown in
    let r := say r print_directory_breakdown in
    let r := say r print_sample_files in
    (r, Ok 0).

(** *** attach *)

Record AttachState (W : Type) := {
  at_run : Run W;
  at_stats : ProcessingStats
}.
Arguments at_run {W}.
Arguments at_stats {W}.

(** The body of "for pair in result.pairs" in [cmd_attach]: the
    arguments of the call are evaluated first, [pair.video_path] last. *)
Definition attach_step {W : Type} (E : Engine W) (B : PyBuiltins) (args : Args)
  (st : AttachState W) (pair : MediaFilePair) : AttachState W * option exn :=
  match pair_getattr pair "video_path" with
  | Raise e => (st, Some e)
  | Ok video_path =>
      let r := at_run st in
      let stats := at_stats st in
      match process_file E B true (world r) (media_path pair) (json_path pair)
              (negb (arg_no_verify args)) video_path with
      | (s', Raise e) =>
          ({| at_run := {| world := s'; console := console r;
                           unlinked := unlinked r |};
              at_stats := stats |}, Some e)
      | (s', Ok (ok, msg, verification)) =>
          let r' := {| world := s'; console := console r;
                       unlinked := unlinked r |} in
          let stats' :=
            if ok then
              {| total := total stats;
                 successful := S (successful stats);
                 failed := failed stats;
                 skipped := skipped stats;
                 verified := match verification with
                             | Some _ => S (verified stats)
                             | None => verified stats
                             end;
                 verification_failed := verification_failed stats;
                 failures := failures stats;
                 verification_failures := verification_failures stats |}
            else
              let vfailed := match verification with
                             | Some v => negb (success v)
                             | None => false
                             end in
              {| total := total stats;
                 successful := successful stats;
                 failed := S (failed stats);
                 skipped := skipped stats;
                 verified := verified stats;
                 verification_failed :=
                   if vfailed then S (verification_failed stats)
                   else verification_failed stats;
                 failures := failures stats ++ [(media_path pair, msg)];
                 verification_failures :=
                   match verification with
                   | Some v =>
                       if negb (success v) then
                         verification_failures stats
                         ++ [(media_path pair, message v)]
                       else verification_failures stats
                   | None => verification_failures stats
                   end |} in
          ({| at_run := r'; at_stats := stats' |}, None)
      end
  end.

Definition cmd_attach {W : Type} (E : Engine W) (B : PyBuiltins) (C : Console)
  (args : Args) (s : W) : Run W * result nat :=
  let directory := arg_directory args in
  let r := start s in
  if negb (path_exists E s directory) then
    (say r (print_error ("Directory not found: " ++ str_of_path B directory)),
     Ok 1)
  else if negb (fst (exiftool_available C)) then
    (say r (print_error (snd (exiftool_available C))), Ok 1)
  else
    let r := say r (print_info (snd (exiftool_available C))) in
    let r := say r (print_info ("Scanning directory: "
                                ++ str_of_path B directory)) in
    let result := scan_directory (file_system E s) directory
                    (arg_recursive args) in
    match pairs result with
    | [] => (say r (print_warning "No files found to process"), Ok 0)
    | _ =>
        let r := say r print_scan_stats in
        let r := say r print_extension_breakdown in
        if arg_dry_run args then
          let r := say r (print_info "Dry run mode - no changes will be made") in
          (say r print_sample_files, Ok 0)
        else if negb (arg_yes args)
                && negb (confirm_action C
                           ("This will modify "
                            ++ str_of_nat B (List.length (pairs result))
                            ++ " files. Proceed?")) then
          (say r (print_info "Operation cancelled"), Ok 0)
        else
          let init :=
            {| at_run := r;
               at_stats := {| total := List.length (pairs result);
                              successful := 0; failed := 0; skipped := 0;
                              verified := 0; verification_failed := 0;
                              failures := []; verification_failures := [] |} |} in
          match for_each (attach_step E B args) (pairs result) init with
          | (st, Some e) => (at_run st, Raise e)
          | (st, None) =>
              (say (at_run st) (print_processing_results (at_stats st)),
               Ok (if 0 <? failed (at_stats st) then 1 else 0))
          end
    end.

(** *** cleanup *)

Record CleanupState (W : Type) := {
  cl_run : Run W;
  deleted : nat;
  cl_failed : nat;
  cl_skipped_count : nat
}.
Arguments cl_run {W}.
Arguments deleted {W}.
Arguments cl_failed {W}.
Arguments cl_skipped_count {W}.

(** "try: pair.json_path.unlink() ... except OSError" with its counters. *)
Definition delete_sidecar {W : Type} (E : Engine W) (B : PyBuiltins)
  (st : CleanupState W) (pair : MediaFilePair) : CleanupState W :=
  let r := cl_run st in
  match unlink E (world r) (json_path pair) with
  | (s', None) =>
      {| cl_run := {| world := s'; console := console r;
                      unlinked := unlinked r ++ [json_path pair] |};
         deleted := S (deleted st);
         cl_failed := cl_failed st;
         cl_skipped_count := cl_skipped_count st |}
  | (s', Some e) =>
      {| cl_run := say {| world := s'; console := console r;
                          unlinked := unlinked r |}
                     (print_error ("Failed to delete "
                                   ++ str_of_path B (json_path pair)
                                   ++ ": " ++ e));
         deleted := deleted st;
         cl_failed := S (cl_failed st);
         cl_skipped_count := cl_skipped_count st |}
  end.

(** The body of the loop under "if args.no_verify". *)
Definition cleanup_unverified_step {W : Type} (E : Engine W) (B : PyBuiltins)
  (st : CleanupState W) (pair : MediaFilePair)
  : CleanupState W * option exn :=
  (delete_sidecar E B st pair, None).

(** The block under "if pair.video_path:" in [cmd_cleanup]. *)
Definition cleanup_combine (verification video_verification : VerificationResult)
  : VerificationResult :=
  let ok := success verification && success video_verification in
  let dm := date_match verification && date_match video_verification in
  let gm := gps_match verification && gps_match video_verification in
  let sm := description_match verification
            && description_match video_verification in
  {| success := ok; date_match := dm; gps_match := gm;
     description_match := sm;
     message :=
       if negb ok then
         ("Verification failed on: "
          ++ join ", "
               ((if negb dm then ["image or video date"] else [])
                ++ (if negb gm then ["image or video GPS"] else [])
                ++ (if negb sm then ["image or video description"] else [])))
       else message verification |}.

Definition count_skipped {W : Type} (st : CleanupState W) : CleanupState W :=
  {| cl_run := cl_run st; deleted := deleted st; cl_failed := cl_failed st;
     cl_skipped_count := S (cl_skipped_count st) |}.

(** The body of the loop under "Verify before deleting". *)
Definition cleanup_verified_step {W : Type} (E : Engine W) (B : PyBuiltins)
  (st : CleanupState W) (pair : MediaFilePair)
  : CleanupState W * option exn :=
  let s := world (cl_run st) in
  match parse_google_json B (load_json E s (json_path pair)) with
  | Raise e => (st, Some e)
  | Ok None => (count_skipped st, None)
  | Ok (Some metadata) =>
      match verify_metadata B (get_metadata E s (media_path pair)) metadata with
      | Raise e => (st, Some e)
      | Ok verification =>
          match pair_getattr pair "video_path" with
          | Raise e => (st, Some e)
          | Ok video_path =>
              match
                match video_path with
                | Some vp =>
                    video_verification <-
                      verify_metadata B (get_metadata E s vp) metadata ;;
                    Ok (cleanup_combine verification video_verification)
                | None => Ok verification
                end
              with
              | Raise e => (st, Some e)
              | Ok verification =>
                  if success verification then
                    (delete_sidecar E B st pair, None)
                  else
                    let st' := count_skipped st in
                    ({| cl_run :=
                          say (cl_run st')
                            (print_warning
                               ("Skipping " ++ name (json_path pair) ++ ": "
                                ++ message verification));
                        deleted := deleted st';
                        cl_failed := cl_failed st';
                        cl_skipped_count := cl_skipped_count st' |}, None)
              end
          end
      end
  end.

Definition cmd_cleanup {W : Type} (E : Engine W) (B : PyBuiltins) (C : Console)
  (args : Args) (s : W) : Run W * result nat :=
  let directory := arg_directory args in
  let r := start s in
  if negb (path_exists E s directory) then
    (say r (print_error ("Directory not found: " ++ str_of_path B directory)),
     Ok 1)
  else if negb (arg_no_verify args) && negb (fst (exiftool_available C)) then
    (say r (print_error (snd (exiftool_available C))), Ok 1)
  else
    let r := if negb (arg_no_verify args)
             then say r (print_info (snd (exiftool_available C))) else r in
    let r := say r (print_info ("Scanning directory: "
                                ++ str_of_path B directory)) in
    let result := scan_directory (file_system E s) directory
                    (arg_recursive args) in
    match pairs result with
    | [] => (say r (print_warning "No JSON files found to clean up"), Ok 0)
    | _ =>
        let r := say r print_scan_stats in
        let warning :=
          ("This will DELETE JSON files"
           ++ (if arg_no_verify args
               then " WITHOUT verifying metadata was written (DANGEROUS)"
               else ""))%string in
        if negb (arg_yes args)
           && negb (confirm_action C
                      (warning ++ ". "
                       ++ str_of_nat B (List.length (pairs result))
                       ++ " files will be deleted. Proceed?")) then
          (say r (print_info "Operation cancelled"), Ok 0)
        else
          let init := {| cl_run := r; deleted := 0; cl_failed := 0;
                         cl_skipped_count := 0 |} in
          let body := if arg_no_verify args
                      then cleanup_unverified_step E B
                      else cleanup_verified_step E B in
          match for_each body (pairs result) init with
          | (st, Some e) => (cl_run st, Raise e)
          | (st, None) =>
              let r := say (cl_run st)
                         (print_cleanup_results (deleted st) (cl_failed st)
                            (cl_skipped_count st)) in
              let r :=
                match orphan_jsons result with
                | [] => r
                | _ =>
                    say r (print_warning
                             ("Found "
                              ++ str_of_nat B (List.length (orphan_jsons result))
                              ++ " orphan JSON files (no matching media). "
                              ++ "These were NOT deleted."))
                end in
              (r, Ok (if 0 <? cl_failed st then 1 else 0))
          end
    end.

(** *** main *)

Inductive command := stats | attach | cleanup.

(** The try block of [main]: an exception of a command is reported and
    the exit code is 1.  (An interrupt from the keyboard, exit code 130,
    has no counterpart here: nothing interrupts a run.) *)
Definition main {W : Type} (E : Engine W) (B : PyBuiltins) (C : Console)
  (cmd : command) (args : Args) (s : W) : Run W * nat :=
  let '(r, outcome) :=
    match cmd with
    | stats => cmd_stats E B args s
    | attach => cmd_attach E B C args s
    | cleanup => cmd_cleanup E B C args s
    end in
  match outcome with
  | Ok code => (r, code)
  | Raise e => (say r (print_error ("Unexpected error: " ++ str_of_exn e)), 1)
  end.

(** The built-ins for the worked examples below, none of which converts
    text to a number, reads the calendar or prints a value: text is
    never a number, every timestamp is in range, printing is empty. *)
Definition example_builtins : PyBuiltins :=
  {| float_of_str := fun _ => None;
     int_of_str := fun _ => None;
     fromtimestamp := fun ts => Ok ts;
     strftime := fun _ => "";
     str_of := fun _ => "";
     str_of_float := fun _ => "";
     str_of_path := fun _ => "";
     str_of_nat := fun _ => "" |}.

(** Sidecars for the worked examples: a located photo, the (0,0)
    sentinel with an altitude, and two with a [favorited] that is no
    boolean. *)
Definition sidecar_located : pyval :=
  PDict [ ("title", PStr "a.jpg");
          ("geoData", PDict [ ("latitude", PFloat (float_lit 377749 4));
                              ("longitude", PFloat (fopp (float_lit 1224194 4)));
                              ("altitude", PFloat (float_lit 125 1)) ]);
          ("favorited", PBool true) ].


Definition sidecar_favorited_text : pyval :=
  PDict [ ("title", PStr "c.jpg"); ("favorited", PStr "maybe") ].

Definition sidecar_favorited_null : pyval :=
  PDict [ ("title", PStr "d.jpg"); ("favorited", PNone) ].

(** The expected location (37.7749, -122.4194), and the tags of a file
    that reads back [lat] and [lon]. *)
Definition expected_location : GoogleMetadata :=
  {| title := PNone; description := None;
     photo_taken_time := None; creation_time := None;
     latitude := Some (float_lit 377749 4);
     longitude := Some (fopp (float_lit 1224194 4));
     altitude := None; favorited := PBool false |}.

Definition read_back (lat lon : pyfloat) : tags :=
  [ ("SourceFile", PStr "a.jpg");
    ("EXIF:GPSLatitude", PFloat lat); ("EXIF:GPSLongitude", PFloat lon) ].

(** A directory [/t] with a photo, its sidecar and a companion video.
    [sidecar] is what loading the sidecar gives, [image_tags] what the
    photo reads back; the video reads back no tag but its name.  Writing
    and deleting succeed. *)
Definition a_jpg : Path := ["/"; "t"; "a.jpg"].
Definition a_json : Path := ["/"; "t"; "a.jpg.supplemental-metadata.json"].
Definition a_mp4 : Path := ["/"; "t"; "a.mp4"].

Definition one_pair_engine (sidecar : option pyval) (image_tags : tags)
  : Engine unit :=
  {| set_tags := fun s _ _ => (s, None);
     get_metadata := fun _ p =>
       if path_eq_dec p a_jpg then Some image_tags
       else if path_eq_dec p a_mp4 then Some [("SourceFile", PStr "a.mp4")]
       else None;
     load_json := fun _ p => if path_eq_dec p a_json then sidecar else None;
     unlink := fun s _ => (s, None);
     file_system := fun _ =>
       flat_dir ["a.jpg"; "a.jpg.supplemental-metadata.json"; "a.mp4"] |}.

Definition example_console : Console :=
  {| exiftool_available := (true, "ExifTool version 12.76 found");
     confirm_action := fun _ => true |}.

(** [<command> /t --yes] *)
Definition example_args : Args :=
  {| arg_directory := ["/"; "t"]; arg_recursive := false;
     arg_dry_run := false; arg_no_verify := false; arg_yes := true |}.

Definition a_pair : MediaFilePair :=
  {| media_path := a_jpg; json_path := a_json |}.

(** The photo was never tagged: it reads back its name only. *)
Definition untagged_photo : Engine unit :=
  one_pair_engine (Some sidecar_located) [("SourceFile", PStr "a.jpg")].


(** ** Vocabulary of the statements *)

(** [lit$] matches nowhere strictly inside [lit] when the text is [t]:
    a check over the finitely many offsets. *)
Definition no_inner_match (lit t : string) : bool :=
  forallb (fun k => negb (match_at_end (drop k lit) t))
          (seq 1 (String.length lit)).

(** The entries [scan_directory] lists. *)
Definition listing (fs : FileSystem) (directory : Path) (recursive : bool)
  : list Path :=
  if recursive then fs_rglob fs directory else fs_iterdir fs directory.

(** The three branches of [classify], read off an entry: an album file
    that is skipped. *)
Definition is_skip_entry (fs : FileSystem) (e : Path) : bool :=
  fs_is_file fs e && str_in (name e) SKIP_FILES.

(** The key under which a sidecar is stored in [json_files]. *)
Definition sidecar_target (fs : FileSystem) (e : Path) : option Path :=
  if fs_is_file fs e && negb (str_in (name e) SKIP_FILES)
     && is_metadata_json (name e)
  then match get_media_filename_from_json (name e) with
       | Some media_name =>
           if String.eqb media_name "" then None
           else Some (joinpath (parent e) media_name)
       | None => None
       end
  else None.

(** An entry that the loop adds to [media_files]. *)
Definition is_media_entry (fs : FileSystem) (e : Path) : bool :=
  fs_is_file fs e && negb (str_in (name e) SKIP_FILES)
  && negb (is_metadata_json (name e)) && is_media_file (name e).

(** [v] is the last entry of [l] stored under the key [k]. *)
Definition last_writer (fs : FileSystem) (l : list Path) (k v : Path) : Prop :=
  exists l1 l2, l = l1 ++ v :: l2 /\ sidecar_target fs v = Some k /\
                forall e, In e l2 -> sidecar_target fs e <> Some k.

(** The raw value the parser reads at [geoData.<key>]. *)
Definition geo_field (data : pyval) (key : string) : option pyval :=
  match py_get data "geoData" (PDict []) with
  | Ok geo => match py_get geo key PNone with
              | Ok v => Some v
              | Raise _ => None
              end
  | Raise _ => None
  end.


(** ** scanner.py: where the suffix starts *)

(** The loop of [get_media_filename_from_json], keeping [match.start()]. *)
Fixpoint first_start (patterns : list string) (json_filename : string)
  : option nat :=
  match patterns with
  | [] => None
  | pattern :: rest =>
      match re_search pattern json_filename with
      | Some start => Some start
      | None => first_start rest json_filename
      end
  end.

(** ** scanner.py: [get_directory_stats] *)

(** [counts[key] = counts.get(key, 0) + 1] on a dict kept in insertion
    order. *)
Fixpoint count_incr (counts : list (string * nat)) (key : string)
  : list (string * nat) :=
  match counts with
  | [] => [(key, 1)]
  | (k, n) :: rest =>
      if String.eqb k key then (k, S n) :: rest
      else (k, n) :: count_incr rest key
  end.

(** [counts.get(key, 0)] *)
Fixpoint counts_get (counts : list (string * nat)) (key : string) : nat :=
  match counts with
  | [] => 0
  | (k, n) :: rest => if String.eqb k key then n else counts_get rest key
  end.

(** [p.name] where [p] may be the root alone, whose name is empty. *)
Definition dir_name (p : Path) : string :=
  match p with
  | [root] => if String.eqb root "/" then "" else root
  | _ => last p ""
  end.

Record DirectoryStats := {
  stat_total_pairs : nat;
  stat_total_orphan_jsons : nat;
  stat_total_orphan_media : nat;
  stat_total_skipped : nat;
  stat_extensions : list (string * nat);
  stat_directories : list (string * nat)
}.

(** [pair.media_path.suffix.lower()] and [pair.media_path.parent.name] *)
Definition pair_extension (pair : MediaFilePair) : string :=
  lower (suffix (name (media_path pair))).

Definition pair_directory (pair : MediaFilePair) : string :=
  dir_name (parent (media_path pair)).

Definition get_directory_stats (result : ScanResult) : DirectoryStats :=
  {| stat_total_pairs := List.length (pairs result);
     stat_total_orphan_jsons := List.length (orphan_jsons result);
     stat_total_orphan_media := List.length (orphan_media result);
     stat_total_skipped := List.length (skipped_jsons result);
     stat_extensions :=
       fold_left (fun counts pair => count_incr counts (pair_extension pair))
         (pairs result) [];
     stat_directories :=
       fold_left (fun counts pair => count_incr counts (pair_directory pair))
         (pairs result) [] |}.

(** ** Built-ins on plain input

    An instance of the built-ins for examples with numbers and dates:
    [int] and [float] read text made of decimal digits with an optional
    sign, the calendar is the proleptic Gregorian one in UTC for the
    years 1000 to 9999, a number prints in decimal, a path prints its
    parts joined by slashes. *)
Definition digit_value (c : ascii) : option Z :=
  let n := nat_of_ascii c in
  if (48 <=? n) && (n <=? 57) then Some (Z.of_nat (n - 48)) else None.

Fixpoint digits_value (acc : Z) (s : string) : option Z :=
  match s with
  | EmptyString => Some acc
  | String c s' =>
      match digit_value c with
      | Some d => digits_value (10 * acc + d) s'
      | None => None
      end
  end.

Definition decimal_of_str (s : string) : option Z :=
  match s with
  | EmptyString => None
  | String c s' =>
      if Ascii.eqb c "-"%char then
        match s' with
        | EmptyString => None
        | _ => option_map Z.opp (digits_value 0 s')
        end
      else if Ascii.eqb c "+"%char then
        match s' with
        | EmptyString => None
        | _ => digits_value 0 s'
        end
      else digits_value 0 s
  end.

Definition digit_char (d : Z) : ascii := ascii_of_nat (48 + Z.to_nat d).

(** [n] in decimal on [width] digits, zero padded. *)
Fixpoint padded (width : nat) (n : Z) : string :=
  match width with
  | O => EmptyString
  | S w => (padded w (n / 10) ++ String (digit_char (n mod 10)) "")%string
  end.

(** Year, month and day of a count of days since 1970-01-01. *)
Definition civil_from_days (days : Z) : Z * Z * Z :=
  let z := (days + 719468)%Z in
  let era := (z / 146097)%Z in
  let doe := (z - era * 146097)%Z in
  let yoe := ((doe - doe / 1460 + doe / 36524 - doe / 146096) / 365)%Z in
  let doy := (doe - (365 * yoe + yoe / 4 - yoe / 100))%Z in
  let mp := ((5 * doy + 2) / 153)%Z in
  let d := (doy - (153 * mp + 2) / 5 + 1)%Z in
  let m := (if mp <? 10 then mp + 3 else mp - 9)%Z in
  let y := (yoe + era * 400 + (if m <=? 2 then 1 else 0))%Z in
  (y, m, d).

Definition utc_strftime (ts : Z) : string :=
  let '(y, m, d) := civil_from_days (ts / 86400) in
  let secs := (ts mod 86400)%Z in
  (padded 4 y ++ ":" ++ padded 2 m ++ ":" ++ padded 2 d ++ " "
   ++ padded 2 (secs / 3600) ++ ":" ++ padded 2 (secs mod 3600 / 60) ++ ":"
   ++ padded 2 (secs mod 60))%string.

Definition plain_builtins : PyBuiltins :=
  {| float_of_str := fun s => option_map float_of_Z (decimal_of_str s);
     int_of_str := decimal_of_str;
     fromtimestamp := fun ts =>
       if ((-30610224000 <=? ts) && (ts <=? 253402300799))%Z
       then Ok ts else Raise ValueError;
     strftime := utc_strftime;
     str_of := fun _ => "";
     str_of_float := fun _ => "";
     str_of_path := join "/";
     str_of_nat := fun n => padded 1 (Z.of_nat n) |}.

(** A sidecar with a caption and a capture time given as text, taken
    2021-01-01 00:00:00 UTC. *)
Definition sidecar_captioned : pyval :=
  PDict [ ("title", PStr "e.jpg");
          ("description", PStr "  Sunrise over the bay  ");
          ("photoTakenTime", PDict [ ("timestamp", PStr "1609459200");
                                     ("formatted", PStr "Jan 1, 2021") ]);
          ("creationTime", PDict [ ("timestamp", PStr "1640995200") ]) ].

(** A record with a caption and a capture time only, and the tags of a
    file that echoes the date with a zone after it and has no caption. *)
Definition expected_captioned : GoogleMetadata :=
  {| title := PStr "e.jpg"; description := Some "Sunrise over the bay";
     photo_taken_time := Some 1609459200%Z; creation_time := None;
     latitude := None; longitude := None; altitude := None;
     favorited := PBool false |}.

Definition expected_caption_only : GoogleMetadata :=
  {| title := PStr "e.jpg"; description := Some "Sunrise over the bay";
     photo_taken_time := None; creation_time := None;
     latitude := None; longitude := None; altitude := None;
     favorited := PBool false |}.

Definition expected_nothing : GoogleMetadata :=
  {| title := PNone; description := None;
     photo_taken_time := None; creation_time := None;
     latitude := None; longitude := None; altitude := None;
     favorited := PBool false |}.

Definition dated_tags : tags :=
  [ ("SourceFile", PStr "e.jpg");
    ("EXIF:DateTimeOriginal", PStr "2021:01:01 00:00:00+00:00") ].


Definition example_args_dry_run : Args :=
  {| arg_directory := ["/"; "t"]; arg_recursive := false;
     arg_dry_run := true; arg_no_verify := false; arg_yes := false |}.

Definition example_args_ask : Args :=
  {| arg_directory := ["/"; "t"]; arg_recursive := false;
     arg_dry_run := false; arg_no_verify := false; arg_yes := false |}.


Definition declining_console : Console :=
  {| exiftool_available := (true, "ExifTool version 12.76 found");
     confirm_action := fun _ => false |}.


(* ================================================================== *)
(** * Part II. Verification                                            *)
(* ================================================================== *)

(** ** Strings and the pattern table *)

Lemma length_append (a b : string) :
  String.length (a ++ b)%string = String.length a + String.length b.
Proof. induction a as [|c a IH]; simpl; [reflexivity | now rewrite IH]. Qed.

Lemma take_append (a b : string) : take (String.length a) (a ++ b)%string = a.
Proof. induction a as [|c a IH]; simpl; [now destruct b | now rewrite IH]. Qed.

Lemma drop_append (a b : string) : drop (String.length a) (a ++ b)%string = b.
Proof. induction a as [|c a IH]; simpl; [now destruct b | exact IH]. Qed.

(** A match of [lit$] at the start of [s] fixes the length of [s]. *)
Lemma match_at_end_length (lit s : string) :
  match_at_end lit s = true ->
  String.length s = String.length lit \/ String.length s = S (String.length lit).
Proof.
  revert s; induction lit as [|a lit IH]; intros s H.
  - destruct s as [|c [|d s]]; simpl in *; try discriminate; auto.
  - destruct s as [|b s]; simpl in H; [discriminate|].
    apply andb_prop in H as [_ H].
    destruct (IH _ H) as [E|E]; simpl; rewrite E; auto.
Qed.

(** Peeling a prefix of the text peels as much of the literal. *)
Lemma match_at_end_append (w t lit : string) :
  String.length w <= String.length lit ->
  match_at_end lit (w ++ t)%string = true ->
  match_at_end (drop (String.length w) lit) t = true.
Proof.
  revert lit; induction w as [|c w IH]; intros lit Hlen H.
  - now destruct lit.
  - destruct lit as [|a lit]; simpl in Hlen; [lia|].
    simpl in H. apply andb_prop in H as [_ H].
    simpl. apply IH; [lia | exact H].
Qed.

Lemma no_match_before (lit t w : string) :
  no_inner_match lit t = true ->
  2 <= String.length t ->
  w <> EmptyString ->
  match_at_end lit (w ++ t)%string = false.
Proof.
  intros Hn Ht Hw.
  destruct (match_at_end lit (w ++ t)%string) eqn:E; [exfalso | reflexivity].
  assert (Hl : 1 <= String.length w <= String.length lit).
  { pose proof (match_at_end_length _ _ E) as L.
    rewrite length_append in L.
    destruct w; [congruence | simpl in *; lia]. }
  apply match_at_end_append in E; [|lia].
  unfold no_inner_match in Hn. rewrite forallb_forall in Hn.
  specialize (Hn (String.length w)).
  rewrite E in Hn. discriminate Hn.
  apply in_seq. lia.
Qed.

Lemma re_search_append (lit t m : string) :
  no_inner_match lit t = true ->
  2 <= String.length t ->
  re_search lit (m ++ t)%string
  = option_map (Nat.add (String.length m)) (re_search lit t).
Proof.
  intros Hn Ht. induction m as [|c m IH].
  - simpl. destruct (re_search lit t); reflexivity.
  - change (String c m ++ t)%string with (String c (m ++ t)%string).
    cbn [re_search].
    change (String c (m ++ t)%string) with (String c m ++ t)%string.
    rewrite (no_match_before lit t (String c m) Hn Ht) by discriminate.
    rewrite IH. destruct (re_search lit t); reflexivity.
Qed.

(** Whatever the media name, a synthetic sidecar name is cut at its own
    suffix: no other pattern of the table can match it. *)
Lemma media_filename_of_append (media_name sfx : string) :
  In sfx JSON_PATTERNS ->
  get_media_filename_from_json (media_name ++ sfx)%string = Some media_name.
Proof.
  intros Hin. unfold get_media_filename_from_json, JSON_PATTERNS in *.
  simpl in Hin.
  destruct Hin as [<-|[<-|[<-|[<-|[]]]]];
    cbn [first_match];
    repeat (rewrite re_search_append by (vm_compute; first [reflexivity | lia]);
            match goal with
            | |- context [re_search ?l ?t] =>
                let r := eval vm_compute in (re_search l t) in
                change (re_search l t) with r
            end;
            cbn [option_map]);
    rewrite Nat.add_0_r, take_append; reflexivity.
Qed.

Lemma first_match_spec (patterns : list string) (name : string) :
  match first_match patterns name with
  | Some m =>
      exists earlier pattern later start,
        patterns = earlier ++ pattern :: later /\
        (forall q, In q earlier -> re_search q name = None) /\
        re_search pattern name = Some start /\
        m = take start name
  | None => forall q, In q patterns -> re_search q name = None
  end.
Proof.
  induction patterns as [|p ps IH]; simpl.
  - intros q [].
  - destruct (re_search p name) as [start|] eqn:E.
    + exists [], p, ps, start. repeat split; auto. intros q [].
    + destruct (first_match ps name) as [m|].
      * destruct IH as (earlier & q & later & start & -> & Hn & Hq & ->).
        exists (p :: earlier), q, later, start. repeat split; auto.
        intros r [<-|Hr]; auto.
      * intros q [<-|Hq]; auto.
Qed.

(** The start that [re_search] returns is a match, and the leftmost one. *)
Lemma re_search_leftmost (lit s : string) (start : nat) :
  re_search lit s = Some start ->
  match_at_end lit (drop start s) = true /\
  start <= String.length s /\
  forall k, k < start -> match_at_end lit (drop k s) = false.
Proof.
  revert start; induction s as [|c s IH]; intros start H; simpl in H.
  - destruct (match_at_end lit "") eqn:E; [|discriminate].
    injection H as <-. simpl. repeat split; auto; intros k Hk; lia.
  - destruct (match_at_end lit (String c s)) eqn:E.
    + injection H as <-. simpl. repeat split; auto; try lia; intros k Hk; lia.
    + destruct (re_search lit s) as [i|] eqn:R; [|discriminate].
      injection H as <-. destruct (IH i eq_refl) as (A & B & C).
      simpl. repeat split; auto; try lia.
      intros [|k] Hk; simpl; [exact E | apply C; lia].
Qed.

(** C4. For each of the four suffix patterns and every media name that
    does not itself end in a shorter pattern of the table,
    [get_media_filename_from_json (media_name + suffix)] is exactly
    [media_name]; and on any name the patterns are tried in the order of
    the table (most specific, i.e. longest, first), the result being the
    prefix before the leftmost match of the first pattern that matches,
    or [None] when no pattern matches. *)
Theorem media_name_for_suffix_roundtrip
  (media_name sfx name : string)
  (Hsfx : In sfx JSON_PATTERNS)
  (Hshort : forall p, In p JSON_PATTERNS ->
                      String.length p < String.length sfx ->
                      re_search p media_name = None) :
  get_media_filename_from_json (media_name ++ sfx)%string = Some media_name /\
  map String.length JSON_PATTERNS = [27; 25; 22; 8] /\
  match get_media_filename_from_json name with
  | Some m =>
      exists earlier pattern later start,
        JSON_PATTERNS = earlier ++ pattern :: later /\
        (forall q, In q earlier -> re_search q name = None) /\
        re_search pattern name = Some start /\
        match_at_end pattern (drop start name) = true /\
        (forall k, k < start -> match_at_end pattern (drop k name) = false) /\
        m = take start name
  | None => forall q, In q JSON_PATTERNS -> re_search q name = None
  end.
Proof.
  split; [now apply media_filename_of_append|].
  split; [reflexivity|].
  unfold get_media_filename_from_json.
  pose proof (first_match_spec JSON_PATTERNS name) as H.
  destruct (first_match JSON_PATTERNS name) as [m|]; [|exact H].
  destruct H as (earlier & pattern & later & start & E & Hn & Hs & ->).
  exists earlier, pattern, later, start.
  destruct (re_search_leftmost _ _ _ Hs) as (A & _ & C).
  repeat split; auto.
Qed.

Lemma media_name_for_suffix_roundtrip_witness :
  get_media_filename_from_json "photo.jpg.supplemental-met.json"
  = Some "photo.jpg".
Proof.
  refine (proj1 (media_name_for_suffix_roundtrip
                   "photo.jpg" ".supplemental-met.json" "video.mp4.su.json"
                   _ _)).
  - simpl; auto.
  - intros p Hp Hlen. simpl in Hp.
    destruct Hp as [<-|[<-|[<-|[<-|[]]]]]; reflexivity.
Defined.

(** ** The scanner: lists, the dict and the set *)

Lemma path_in_true (p : Path) (l : list Path) : path_in p l = true <-> In p l.
Proof. unfold path_in. destruct (in_dec path_eq_dec p l); split; auto; discriminate. Qed.

Lemma path_in_false (p : Path) (l : list Path) : path_in p l = false <-> ~ In p l.
Proof.
  unfold path_in. destruct (in_dec path_eq_dec p l); split; auto; try discriminate.
  intros H; contradiction.
Qed.

Lemma set_add_In (s : list Path) (x y : Path) :
  In y (set_add s x) <-> In y s \/ y = x.
Proof.
  unfold set_add. destruct (path_in x s) eqn:E.
  - apply path_in_true in E. split; [auto | intros [H| ->]; auto].
  - rewrite in_app_iff. simpl. intuition.
Qed.

Lemma set_add_NoDup (s : list Path) (x : Path) : NoDup s -> NoDup (set_add s x).
Proof.
  intros H. unfold set_add. destruct (path_in x s) eqn:E; [exact H|].
  apply path_in_false in E.
  apply NoDup_app; [exact H | repeat constructor; intros [] |].
  intros a Ha [<-|[]]. contradiction.
Qed.

Lemma dict_set_keys (d : list (Path * Path)) (k v : Path) :
  map fst (dict_set d k v)
  = if path_in k (map fst d) then map fst d else map fst d ++ [k].
Proof.
  induction d as [|[k' v'] d IH]; simpl; [reflexivity|].
  destruct (path_eq_dec k k') as [->|N].
  - simpl. unfold path_in.
    destruct (in_dec path_eq_dec k' (k' :: map fst d)) as [_|n]; [reflexivity|].
    exfalso; apply n; left; reflexivity.
  - simpl. rewrite IH. unfold path_in.
    destruct (in_dec path_eq_dec k (map fst d)) as [i|n];
      destruct (in_dec path_eq_dec k (k' :: map fst d)) as [i'|n'];
      try reflexivity.
    + exfalso; apply n'; right; exact i.
    + destruct i' as [E|i']; [congruence | contradiction].
Qed.

Lemma dict_set_NoDup (d : list (Path * Path)) (k v : Path) :
  NoDup (map fst d) -> NoDup (map fst (dict_set d k v)).
Proof.
  intros H. rewrite dict_set_keys. destruct (path_in k (map fst d)) eqn:E; [exact H|].
  apply path_in_false in E.
  apply NoDup_app; [exact H | repeat constructor; intros [] |].
  intros a Ha [<-|[]]. contradiction.
Qed.

Lemma dict_set_In (d : list (Path * Path)) (k v k' v' : Path) :
  NoDup (map fst d) ->
  In (k', v') (dict_set d k v)
  <-> (k' = k /\ v' = v) \/ (k' <> k /\ In (k', v') d).
Proof.
  induction d as [|[k0 v0] d IH]; simpl; intros H.
  - split.
    + intros [E|[]]. injection E as <- <-. auto.
    + intros [[-> ->]|[_ []]]. auto.
  - inversion H as [|? ? Hk0 Hd]; subst.
    destruct (path_eq_dec k k0) as [->|N]; simpl.
    + split.
      * intros [E|Hin].
        -- injection E as <- <-. auto.
        -- right. split; [|auto]. intros ->. apply Hk0.
           change k0 with (fst (k0, v')). now apply in_map.
      * intros [[-> ->]|[Hne [E|Hin]]]; auto.
        injection E as <- <-. congruence.
    + rewrite (IH Hd). split.
      * intros [E|[A|[B C]]]; auto.
        injection E as <- <-. right. split; auto.
      * intros [A|[B [E|C]]]; auto.
Qed.

Lemma fold_left_snoc {A B : Type} (f : A -> B -> A) (l : list B) (x : B) (a : A) :
  fold_left f (l ++ [x]) a = f (fold_left f l a) x.
Proof. now rewrite fold_left_app. Qed.

(** The second and third loops as filters. *)
Lemma match_loop_pairs (media : list Path) (items : list (Path * Path)) (st : Matched) :
  m_pairs (fold_left (match_item media) items st)
  = m_pairs st
    ++ map (fun it => {| media_path := fst it; json_path := snd it |})
         (filter (fun it => path_in (fst it) media) items).
Proof.
  revert st; induction items as [|[mp jp] items IH]; intros st; simpl.
  - now rewrite app_nil_r.
  - rewrite IH. destruct (path_in mp media); simpl; [|reflexivity].
    now rewrite <- app_assoc.
Qed.

Lemma match_loop_orphans (media : list Path) (items : list (Path * Path)) (st : Matched) :
  m_orphan_jsons (fold_left (match_item media) items st)
  = m_orphan_jsons st
    ++ map snd (filter (fun it => negb (path_in (fst it) media)) items).
Proof.
  revert st; induction items as [|[mp jp] items IH]; intros st; simpl.
  - now rewrite app_nil_r.
  - rewrite IH. destruct (path_in mp media); simpl; [reflexivity|].
    now rewrite <- app_assoc.
Qed.

Lemma match_loop_matched (media : list Path) (items : list (Path * Path)) (st : Matched) (x : Path) :
  In x (matched_media (fold_left (match_item media) items st))
  <-> In x (matched_media st)
      \/ In x (map fst (filter (fun it => path_in (fst it) media) items)).
Proof.
  revert st; induction items as [|[mp jp] items IH]; intros st; simpl.
  - tauto.
  - rewrite IH. destruct (path_in mp media); simpl; [|tauto].
    rewrite set_add_In. intuition.
Qed.

Lemma orphan_loop (matched media acc : list Path) :
  fold_left (orphan_step matched) media acc
  = acc ++ filter (fun mp => negb (path_in mp matched)) media.
Proof.
  revert acc; induction media as [|mp media IH]; intros acc; simpl.
  - now rewrite app_nil_r.
  - rewrite IH. unfold orphan_step.
    destruct (negb (path_in mp matched)); simpl; [|reflexivity].
    now rewrite <- app_assoc.
Qed.

(** ** The scanner: what the first loop files where *)

Section FirstLoop.
Variable fs : FileSystem.

Lemma classify_cases (st : Classified) (e : Path) :
  classify fs st e =
  if is_skip_entry fs e then
    {| cl_skipped := cl_skipped st ++ [e];
       json_files := json_files st; media_files := media_files st |}
  else match sidecar_target fs e with
       | Some k =>
           {| cl_skipped := cl_skipped st;
              json_files := dict_set (json_files st) k e;
              media_files := media_files st |}
       | None =>
           if is_media_entry fs e then
             {| cl_skipped := cl_skipped st;
                json_files := json_files st;
                media_files := set_add (media_files st) e |}
           else st
       end.
Proof.
  unfold classify, is_skip_entry, sidecar_target, is_media_entry.
  destruct (fs_is_file fs e); cbn [negb andb]; [|reflexivity].
  destruct (str_in (name e) SKIP_FILES); cbn [negb andb]; [reflexivity|].
  destruct (is_metadata_json (name e)); cbn [negb andb].
  - destruct (get_media_filename_from_json (name e)) as [m|]; [|reflexivity].
    destruct (String.eqb m ""); reflexivity.
  - destruct (is_media_file (name e)); reflexivity.
Qed.

(** The three kinds exclude one another. *)
Lemma skip_not_sidecar (e : Path) :
  is_skip_entry fs e = true -> sidecar_target fs e = None.
Proof.
  unfold is_skip_entry, sidecar_target. intros H.
  apply andb_prop in H as [-> ->]. reflexivity.
Qed.

Lemma skip_not_media (e : Path) :
  is_skip_entry fs e = true -> is_media_entry fs e = false.
Proof.
  unfold is_skip_entry, is_media_entry. intros H.
  apply andb_prop in H as [-> ->]. reflexivity.
Qed.

Lemma sidecar_not_media (e k : Path) :
  sidecar_target fs e = Some k -> is_media_entry fs e = false.
Proof.
  unfold sidecar_target, is_media_entry. intros H.
  destruct (fs_is_file fs e); cbn [negb andb] in *; [|reflexivity].
  destruct (str_in (name e) SKIP_FILES); cbn [negb andb] in *; [reflexivity|].
  destruct (is_metadata_json (name e)); cbn [negb andb] in *;
    [reflexivity|discriminate].
Qed.

Lemma last_writer_snoc (l : list Path) (e k v : Path) :
  last_writer fs (l ++ [e]) k v
  <-> (v = e /\ sidecar_target fs e = Some k)
      \/ (last_writer fs l k v /\ sidecar_target fs e <> Some k).
Proof.
  split.
  - intros (l1 & l2 & E & T & N).
    destruct l2 as [|y l2 _] using rev_ind.
    + apply app_inj_tail in E as [_ ->]. left; auto.
    + change (l1 ++ v :: l2 ++ [y]) with (l1 ++ (v :: l2) ++ [y]) in E.
      rewrite app_assoc in E. apply app_inj_tail in E as [-> ->].
      right. split.
      * exists l1, l2. repeat split; auto.
        intros x Hx. apply N. apply in_or_app; auto.
      * apply N. apply in_or_app; right; left; reflexivity.
  - intros [[-> T]|[(l1 & l2 & -> & T & N) Ne]].
    + exists l, []. repeat split; auto; intros x [].
    + exists l1, (l2 ++ [e]). rewrite <- app_assoc. repeat split; auto.
      intros x Hx. apply in_app_or in Hx as [Hx|[<-|[]]]; auto.
Qed.

Lemma last_writer_nil (k v : Path) : ~ last_writer fs [] k v.
Proof. intros (l1 & l2 & E & _). destruct l1; discriminate. Qed.

(** What the locals hold once the loop has gone over [l]. *)
Lemma first_loop_spec (l : list Path) :
  let c := fold_left (classify fs) l scan_init in
  cl_skipped c = filter (is_skip_entry fs) l /\
  NoDup (media_files c) /\
  (forall x, In x (media_files c) <-> In x l /\ is_media_entry fs x = true) /\
  NoDup (map fst (json_files c)) /\
  (forall k v, In (k, v) (json_files c) <-> last_writer fs l k v).
Proof.
  induction l as [|e l IH] using rev_ind; cbv zeta.
  - simpl. split; [reflexivity|]. split; [constructor|].
    split; [intros x; tauto|]. split; [constructor|].
    intros k v. split; [intros [] | intros H; now apply last_writer_nil in H].
  - rewrite fold_left_snoc, classify_cases.
    cbv zeta in IH. destruct IH as (Hs & Hm & Hmi & Hk & Hj).
    set (c := fold_left (classify fs) l scan_init) in *.
    assert (MI : forall x,
               In x (l ++ [e]) /\ is_media_entry fs x = true
               <-> In x (media_files c)
                   \/ (x = e /\ is_media_entry fs e = true)).
    { intros x. rewrite in_app_iff, Hmi. simpl. split.
      - intros [[H|[<-|[]]] B]; auto.
      - intros [[A B]|[-> B]]; auto. }
    assert (LW : forall k v,
               last_writer fs (l ++ [e]) k v
               <-> (v = e /\ sidecar_target fs e = Some k)
                   \/ (In (k, v) (json_files c)
                       /\ sidecar_target fs e <> Some k)).
    { intros k v. rewrite last_writer_snoc, Hj. tauto. }
    rewrite filter_app. cbn [filter].
    destruct (is_skip_entry fs e) eqn:Sk;
      [ pose proof (skip_not_sidecar _ Sk) as T;
        pose proof (skip_not_media _ Sk) as M
      | rewrite app_nil_r;
        destruct (sidecar_target fs e) as [k0|] eqn:T;
        [ pose proof (sidecar_not_media _ _ T) as M
        | destruct (is_media_entry fs e) eqn:M ] ];
      cbn [cl_skipped json_files media_files].
    + split; [now rewrite Hs|]. split; [exact Hm|].
      split; [intros x; rewrite MI, M; intuition congruence|].
      split; [exact Hk|].
      intros k v. rewrite LW, T. intuition congruence.
    + split; [exact Hs|]. split; [exact Hm|].
      split; [intros x; rewrite MI, M; intuition congruence|].
      split; [now apply dict_set_NoDup|].
      intros k v. rewrite LW, (dict_set_In _ _ _ _ _ Hk). split.
      * intros [[-> ->]|[Ne H]]; [left; auto|].
        right; split; [exact H | congruence].
      * intros [[-> H]|[H Ne]].
        -- injection H as ->. left; auto.
        -- right; split; [congruence | exact H].
    + split; [exact Hs|]. split; [now apply set_add_NoDup|].
      split; [intros x; rewrite MI, set_add_In; intuition congruence|].
      split; [exact Hk|].
      intros k v. rewrite LW. intuition congruence.
    + split; [exact Hs|]. split; [exact Hm|].
      split; [intros x; rewrite MI; intuition congruence|].
      split; [exact Hk|].
      intros k v. rewrite LW. intuition congruence.
Qed.
End FirstLoop.

(** ** The scanner: the result is a partition *)

Lemma NoDup_map_filter {A B : Type} (f : A -> B) (g : A -> bool) (l : list A) :
  NoDup (map f l) -> NoDup (map f (filter g l)).
Proof.
  induction l as [|a l IH]; simpl; intros H; [constructor|].
  inversion H as [|? ? Hn Hl]; subst.
  destruct (g a); simpl; [|now apply IH].
  constructor; [|now apply IH].
  intros Hin. apply Hn. apply in_map_iff in Hin as (x & E & Hx).
  apply filter_In in Hx as [Hx _]. apply in_map_iff. now exists x.
Qed.

Lemma NoDup_app_drop_mid {A : Type} (l1 l2 l3 : list A) :
  NoDup (l1 ++ l2 ++ l3) -> NoDup (l1 ++ l3).
Proof.
  induction l2 as [|a l2 IH]; simpl; intros H; [exact H|].
  apply IH. now apply NoDup_remove_1 in H.
Qed.

Lemma NoDup_app_disjoint {A : Type} (l1 l2 : list A) (x : A) :
  NoDup (l1 ++ l2) -> In x l1 -> ~ In x l2.
Proof.
  induction l1 as [|a l1 IH]; simpl; intros N H1 H2; [contradiction|].
  inversion N as [|? ? Hn Hl]; subst. destruct H1 as [->|H1].
  - apply Hn. apply in_or_app. right. exact H2.
  - exact (IH Hl H1 H2).
Qed.

Lemma is_metadata_json_not_skip (n : string) :
  is_metadata_json n = true -> str_in n SKIP_FILES = false.
Proof.
  unfold is_metadata_json. destruct (str_in n SKIP_FILES); [discriminate | reflexivity].
Qed.

Lemma sidecar_target_Some (fs : FileSystem) (e k : Path) :
  sidecar_target fs e = Some k <->
  fs_is_file fs e = true /\ is_metadata_json (name e) = true /\
  exists m, get_media_filename_from_json (name e) = Some m /\
            m <> "" /\ k = joinpath (parent e) m.
Proof.
  unfold sidecar_target. split.
  - intros H.
    destruct (fs_is_file fs e); cbn [andb] in H; [|discriminate].
    destruct (str_in (name e) SKIP_FILES); cbn [andb negb] in H; [discriminate|].
    destruct (is_metadata_json (name e)); [|discriminate].
    destruct (get_media_filename_from_json (name e)) as [m|]; [|discriminate].
    destruct (String.eqb m "") eqn:E; [discriminate|].
    injection H as <-. repeat split; auto. exists m. repeat split; auto.
    intros ->. discriminate E.
  - intros (F & J & m & G & Ne & ->).
    rewrite F, (is_metadata_json_not_skip _ J), J, G. cbn [andb negb].
    destruct (String.eqb m "") eqn:E; [|reflexivity].
    apply String.eqb_eq in E. contradiction.
Qed.

Section Partition.
Variables (fs : FileSystem) (l : list Path).

Let c := fold_left (classify fs) l scan_init.
Let jf := json_files c.
Let mf := media_files c.
Let in_media := fun it : Path * Path => path_in (fst it) mf.
Let m := fold_left (match_item mf) jf match_init.

(** A sidecar is stored under one key only. *)
Lemma json_files_value_key (k1 k2 v : Path) :
  In (k1, v) jf -> In (k2, v) jf -> k1 = k2.
Proof.
  destruct (first_loop_spec fs l) as (_ & _ & _ & _ & Hj).
  intros H1 H2. apply Hj in H1 as (_ & _ & _ & T1 & _).
  apply Hj in H2 as (_ & _ & _ & T2 & _). congruence.
Qed.

Lemma json_files_values_NoDup : NoDup (map snd jf).
Proof.
  destruct (first_loop_spec fs l) as (_ & _ & _ & Hk & _).
  apply NoDup_map_NoDup_ForallPairs; [|now apply NoDup_map_inv in Hk].
  intros [k1 v1] [k2 v2] H1 H2; simpl; intros <-.
  f_equal. exact (json_files_value_key _ _ _ H1 H2).
Qed.

Lemma pairs_media_eq :
  map media_path (m_pairs m) = map fst (filter in_media jf).
Proof.
  unfold m. rewrite match_loop_pairs. simpl. rewrite map_map. reflexivity.
Qed.

Lemma pairs_json_eq :
  map json_path (m_pairs m) = map snd (filter in_media jf).
Proof.
  unfold m. rewrite match_loop_pairs. simpl. rewrite map_map. reflexivity.
Qed.

Lemma orphan_jsons_eq :
  m_orphan_jsons m = map snd (filter (fun it => negb (in_media it)) jf).
Proof. unfold m. rewrite match_loop_orphans. reflexivity. Qed.

Lemma in_pairs_json (x : Path) :
  In x (map json_path (m_pairs m)) <->
  exists k, In (k, x) jf /\ In k mf.
Proof.
  rewrite pairs_json_eq, in_map_iff. split.
  - intros ([k v] & <- & H). apply filter_In in H as [H I].
    exists k. split; [exact H | now apply path_in_true].
  - intros (k & H & I). exists (k, x). split; [reflexivity|].
    apply filter_In. split; [exact H | now apply path_in_true].
Qed.

Lemma in_orphan_jsons (x : Path) :
  In x (m_orphan_jsons m) <->
  exists k, In (k, x) jf /\ ~ In k mf.
Proof.
  rewrite orphan_jsons_eq, in_map_iff. split.
  - intros ([k v] & <- & H). apply filter_In in H as [H I].
    exists k. split; [exact H|]. apply path_in_false.
    unfold in_media in I. simpl in I. now destruct (path_in k mf).
  - intros (k & H & I). exists (k, x). split; [reflexivity|].
    apply filter_In. split; [exact H|]. apply path_in_false in I.
    unfold in_media. simpl. now rewrite I.
Qed.

Lemma in_pairs_media (x : Path) :
  In x (map media_path (m_pairs m)) <-> In x (matched_media m).
Proof.
  rewrite pairs_media_eq. unfold m. rewrite match_loop_matched. simpl. tauto.
Qed.

Lemma scan_lists_NoDup :
  NoDup l ->
  NoDup (map media_path (m_pairs m) ++ map json_path (m_pairs m)
         ++ m_orphan_jsons m
         ++ fold_left (orphan_step (matched_media m)) mf []
         ++ cl_skipped c).
Proof.
  intros Hl.
  destruct (first_loop_spec fs l) as (Hs & Hm & Hmi & Hk & Hj).
  fold c in Hs, Hm, Hmi, Hk, Hj. fold mf in Hm, Hmi. fold jf in Hk, Hj.
  rewrite orphan_loop. cbn [app]. rewrite Hs.
  assert (KA : forall x, In x (map media_path (m_pairs m)) ->
                         is_media_entry fs x = true).
  { intros x H. rewrite pairs_media_eq in H.
    apply in_map_iff in H as ([k v] & <- & H). apply filter_In in H as [_ H].
    apply path_in_true in H. now apply Hmi in H. }
  assert (KJ : forall x k, In (k, x) jf -> is_media_entry fs x = false
                                           /\ is_skip_entry fs x = false).
  { intros x k H. apply Hj in H as (_ & _ & _ & T & _). split.
    - exact (sidecar_not_media _ _ _ T).
    - destruct (is_skip_entry fs x) eqn:Sk; [|reflexivity].
      apply skip_not_sidecar in Sk. congruence. }
  assert (KD : forall x,
             In x (filter (fun mp => negb (path_in mp (matched_media m))) mf) ->
             is_media_entry fs x = true /\ ~ In x (matched_media m)).
  { intros x H. apply filter_In in H as [H N]. split; [now apply Hmi in H|].
    apply path_in_false. now destruct (path_in x (matched_media m)). }
  assert (KE : forall x, In x (filter (is_skip_entry fs) l) ->
                         is_skip_entry fs x = true).
  { intros x H. now apply filter_In in H. }
  assert (KS : forall x, is_skip_entry fs x = true ->
                         is_media_entry fs x = false).
  { intros x. apply skip_not_media. }
  apply NoDup_app.
  - rewrite pairs_media_eq. now apply NoDup_map_filter.
  - apply NoDup_app.
    + rewrite pairs_json_eq. apply NoDup_map_filter, json_files_values_NoDup.
    + apply NoDup_app.
      * rewrite orphan_jsons_eq.
        apply NoDup_map_filter, json_files_values_NoDup.
      * apply NoDup_app.
        -- now apply NoDup_filter.
        -- now apply NoDup_filter.
        -- intros x HD HE. apply KD in HD as [HD _]. apply KE in HE.
           apply KS in HE. congruence.
      * intros x HC H. apply in_orphan_jsons in HC as (k & HC & _).
        apply KJ in HC as [M S].
        apply in_app_or in H as [H|H].
        -- apply KD in H as [H _]. congruence.
        -- apply KE in H. congruence.
    + intros x HB H. apply in_pairs_json in HB as (k & HB & Ik).
      apply in_app_or in H as [H|H].
      * apply in_orphan_jsons in H as (k' & H & Nk').
        rewrite (json_files_value_key _ _ _ HB H) in Ik. contradiction.
      * apply KJ in HB as [M S]. apply in_app_or in H as [H|H].
        -- apply KD in H as [H _]. congruence.
        -- apply KE in H. congruence.
  - intros x HA H. pose proof (KA _ HA) as M.
    apply in_app_or in H as [H|H].
    + apply in_pairs_json in H as (k & H & _). apply KJ in H as [M' _]. congruence.
    + apply in_app_or in H as [H|H].
      * apply in_orphan_jsons in H as (k & H & _). apply KJ in H as [M' _]. congruence.
      * apply in_app_or in H as [H|H].
        -- apply KD in H as [_ H]. apply H. now apply in_pairs_media.
        -- apply KE in H. apply KS in H. congruence.
Qed.

(** Which sidecars of the listing reach the pairs or the orphans. *)
Lemma sidecar_filed (entry : Path) :
  In entry (map json_path (m_pairs m) ++ m_orphan_jsons m)
  <-> exists k, last_writer fs l k entry.
Proof.
  destruct (first_loop_spec fs l) as (_ & _ & _ & _ & Hj).
  fold c in Hj. fold jf in Hj.
  rewrite in_app_iff, in_pairs_json, in_orphan_jsons. split.
  - intros [(k & H & _)|(k & H & _)]; exists k; now apply Hj.
  - intros (k & H). apply Hj in H.
    destruct (in_dec path_eq_dec k mf); [left | right]; exists k; auto.
Qed.
End Partition.

Lemma scan_all_paths_NoDup
  (fs : FileSystem) (directory : Path) (recursive : bool) :
  NoDup (listing fs directory recursive) ->
  NoDup (all_paths (scan_directory fs directory recursive)).
Proof.
  intros Hnodup. unfold scan_directory, all_paths.
  destruct (fs_exists fs directory); cbn [negb]; [|constructor].
  destruct (fs_is_dir fs directory); cbn [negb]; [|constructor].
  cbn [pairs orphan_jsons orphan_media skipped_jsons].
  exact (scan_lists_NoDup fs _ Hnodup).
Qed.

(** C2 (as the code has it). For a listing without repeated paths, no
    path is filed twice across the pairs' media and sidecar paths, the
    orphan sidecars, the orphan media and the skipped album files.  A
    file classified as a sidecar is filed at most once, never among the
    skipped files, and it reaches the pairs or the orphan sidecars exactly
    when its derived media name is not empty and no later sidecar of the
    listing derives the same media path: a sidecar with an empty media
    name, or one overwritten in [json_files] by a later sidecar, is filed
    nowhere. *)
Theorem scan_result_partition
  (fs : FileSystem) (directory : Path) (recursive : bool)
  (Hnodup : NoDup (listing fs directory recursive)) :
  let r := scan_directory fs directory recursive in
  NoDup (all_paths r) /\
  (fs_exists fs directory = true -> fs_is_dir fs directory = true ->
   forall entry,
     In entry (listing fs directory recursive) ->
     fs_is_file fs entry = true ->
     is_metadata_json (name entry) = true ->
     count_occ path_eq_dec
       (map json_path (pairs r) ++ orphan_jsons r ++ skipped_jsons r) entry <= 1
     /\ ~ In entry (skipped_jsons r)
     /\ (In entry (map json_path (pairs r) ++ orphan_jsons r) <->
         exists media_name before after,
           get_media_filename_from_json (name entry) = Some media_name /\
           media_name <> "" /\
           listing fs directory recursive = before ++ entry :: after /\
           forall e, In e after ->
                     sidecar_target fs e
                     <> Some (joinpath (parent entry) media_name))).
Proof.
  cbv zeta.
  pose proof (scan_all_paths_NoDup fs directory recursive Hnodup) as N.
  split; [exact N|].
  intros Hex Hdir entry Hin Hfile Hjson.
  unfold all_paths in N. apply NoDup_app_remove_l in N.
  revert N. unfold scan_directory. rewrite Hex, Hdir. cbn [negb].
  cbn [pairs orphan_jsons orphan_media skipped_jsons].
  fold (listing fs directory recursive).
  set (l := listing fs directory recursive) in *.
  intros N.
  split; [|split].
  - rewrite app_assoc in N. apply NoDup_app_drop_mid in N.
    rewrite <- app_assoc in N.
    now apply (proj1 (NoDup_count_occ path_eq_dec _) N).
  - destruct (first_loop_spec fs l) as (Hs & _). rewrite Hs.
    intros H. apply filter_In in H as [_ H].
    unfold is_skip_entry in H. apply andb_prop in H as [_ H].
    rewrite (is_metadata_json_not_skip _ Hjson) in H. discriminate.
  - rewrite (sidecar_filed fs l entry). split.
    + intros (k & before & after & E & T & Hn).
      apply sidecar_target_Some in T as (_ & _ & mn & G & Ne & ->).
      exists mn, before, after. auto.
    + intros (mn & before & after & G & Ne & E & Hn).
      exists (joinpath (parent entry) mn), before, after.
      repeat split; auto.
      apply sidecar_target_Some. repeat split; auto.
      exists mn. auto.
Qed.

Lemma scan_result_partition_witness :
  let fs := flat_dir ["a.jpg"; "a.jpg.su.json"; "b.png"; "metadata.json"] in
  NoDup (all_paths (scan_directory fs ["/"; "t"] false)).
Proof.
  refine (proj1 (scan_result_partition
                   (flat_dir ["a.jpg"; "a.jpg.su.json"; "b.png"; "metadata.json"])
                   ["/"; "t"] false _)).
  vm_compute. repeat constructor; simpl; intuition discriminate.
Defined.

(** C2, counterexample.  Two sidecars that derive the same media name: the
    earlier one is in no collection of the result.  A sidecar whose name
    is nothing but a suffix pattern: it is in no collection either. *)
Lemma scan_drops_sidecars :
  (let fs := flat_dir ["a.jpg"; "a.jpg.supplemental-metadata.json";
                       "a.jpg.su.json"] in
   let r := scan_directory fs ["/"; "t"] false in
   let e := ["/"; "t"; "a.jpg.supplemental-metadata.json"] in
   In e (listing fs ["/"; "t"] false) /\
   fs_is_file fs e = true /\ is_metadata_json (name e) = true /\
   ~ In e (map json_path (pairs r) ++ orphan_jsons r ++ skipped_jsons r))
  /\
  (let fs := flat_dir [".su.json"] in
   let r := scan_directory fs ["/"; "t"] false in
   let e := ["/"; "t"; ".su.json"] in
   In e (listing fs ["/"; "t"] false) /\
   fs_is_file fs e = true /\ is_metadata_json (name e) = true /\
   all_paths r = []).
Proof.
  split; cbv zeta.
  - split; [apply path_in_true; vm_compute; reflexivity|].
    split; [vm_compute; reflexivity|].
    split; [vm_compute; reflexivity|].
    apply path_in_false. vm_compute. reflexivity.
  - split; [apply path_in_true; vm_compute; reflexivity|].
    split; [vm_compute; reflexivity|].
    split; vm_compute; reflexivity.
Qed.



(** ** Floats: an integer that is not zero converts to a float that is
    not zero *)

Local Open Scope Z_scope.

Lemma shr_1_m (r : shr_record) :
  0 <= shr_m r -> shr_m (shr_1 r) = shr_m r / 2.
Proof.
  destruct r as [m r s]. destruct m as [|[p|p|]|p]; intros H;
    cbn [shr_1 shr_m] in *; try reflexivity; try lia;
    rewrite <- Z.div2_div; reflexivity.
Qed.

Lemma div_pow2_twice (a n : Z) :
  0 <= n -> a / 2 ^ n / 2 ^ n = a / 2 ^ (2 * n).
Proof.
  intros Hn. assert (P : 0 < 2 ^ n) by (apply Z.pow_pos_nonneg; lia).
  rewrite Z.div_div by lia.
  replace (2 * n) with (n + n) by lia.
  now rewrite Z.pow_add_r by lia.
Qed.

Lemma shr_iter_m (n : positive) (r : shr_record) :
  0 <= shr_m r -> shr_m (iter_pos shr_1 n r) = shr_m r / 2 ^ Zpos n.
Proof.
  revert r; induction n as [n IH|n IH|]; intros r H; simpl iter_pos.
  - assert (H1 : 0 <= shr_m (shr_1 r)).
    { rewrite shr_1_m by exact H. apply Z.div_pos; lia. }
    assert (H2 : 0 <= shr_m (iter_pos shr_1 n (shr_1 r))).
    { rewrite IH by exact H1.
      apply Z.div_pos; [exact H1 | apply Z.pow_pos_nonneg; lia]. }
    rewrite IH by exact H2. rewrite IH by exact H1. rewrite shr_1_m by exact H.
    rewrite div_pow2_twice by lia.
    rewrite Z.div_div by (try lia; apply Z.pow_pos_nonneg; lia).
    rewrite (Pos2Z.inj_xI n).
    replace (2 * Z.pos n + 1) with (Z.succ (2 * Z.pos n)) by lia.
    now rewrite Z.pow_succ_r by lia.
  - assert (H2 : 0 <= shr_m (iter_pos shr_1 n r)).
    { rewrite IH by exact H.
      apply Z.div_pos; [exact H | apply Z.pow_pos_nonneg; lia]. }
    rewrite IH by exact H2. rewrite IH by exact H.
    rewrite div_pow2_twice by lia. reflexivity.
  - rewrite shr_1_m by exact H. reflexivity.
Qed.

Lemma digits2_pos_lower (p : positive) :
  2 ^ (Zpos (digits2_pos p) - 1) <= Zpos p.
Proof.
  induction p as [p IH|p IH|]; simpl digits2_pos.
  - rewrite Pos2Z.inj_succ, (Pos2Z.inj_xI p).
    replace (Z.succ (Z.pos (digits2_pos p)) - 1) with (Z.succ (Z.pos (digits2_pos p) - 1)) by lia.
    rewrite Z.pow_succ_r by lia. lia.
  - rewrite Pos2Z.inj_succ, (Pos2Z.inj_xO p).
    replace (Z.succ (Z.pos (digits2_pos p)) - 1) with (Z.succ (Z.pos (digits2_pos p) - 1)) by lia.
    rewrite Z.pow_succ_r by lia. lia.
  - simpl. lia.
Qed.

Lemma shr_record_of_loc_m (m : Z) (l : location) :
  shr_m (shr_record_of_loc m l) = m.
Proof. destruct l as [|[]]; reflexivity. Qed.

(** No underflow: above the least exponent a positive mantissa stays
    positive through the shift of [shr_fexp]. *)
Lemma shr_fexp_pos (m e : Z) (l : location) :
  0 < m -> emin prec emax <= e ->
  0 < shr_m (fst (shr_fexp prec emax m e l)) /\
  emin prec emax <= snd (shr_fexp prec emax m e l).
Proof.
  intros Hm He. unfold shr_fexp, shr.
  destruct m as [|p|p]; try lia. cbn [Zdigits2].
  pose proof (digits2_pos_lower p) as D.
  set (d := Zpos (digits2_pos p)) in *.
  assert (F : fexp prec emax (d + e) - e = Z.max (d - prec) (emin prec emax - e)).
  { unfold fexp. lia. }
  rewrite F.
  destruct (Z.max (d - prec) (emin prec emax - e)) as [|n|n] eqn:E; cbn [fst snd].
  - rewrite shr_record_of_loc_m. lia.
  - rewrite shr_iter_m by (rewrite shr_record_of_loc_m; lia).
    rewrite shr_record_of_loc_m. split; [|lia].
    apply Z.div_str_pos. split; [apply Z.pow_pos_nonneg; lia|].
    assert (Hn : Z.pos n <= d - 1) by (unfold prec in *; lia).
    apply Z.le_trans with (2 ^ (d - 1)); [|exact D].
    apply Z.pow_le_mono_r; lia.
  - rewrite shr_record_of_loc_m. lia.
Qed.

Lemma round_nearest_even_pos (m : Z) (l : location) :
  0 < m -> 0 < round_nearest_even m l.
Proof.
  intros H. unfold round_nearest_even.
  destruct l as [|[]]; try lia. destruct (Z.even m); lia.
Qed.

Lemma binary_round_aux_not_zero (sx : bool) (m e : Z) (l : location) (s : bool) :
  0 < m -> emin prec emax <= e ->
  binary_round_aux prec emax sx m e l <> S754_zero s.
Proof.
  intros Hm He. unfold binary_round_aux.
  destruct (shr_fexp_pos m e l Hm He) as [P1 E1].
  destruct (shr_fexp prec emax m e l) as [mrs' e'] eqn:S1. cbn [fst snd] in *.
  pose proof (round_nearest_even_pos _ (loc_of_shr_record mrs') P1) as P2.
  destruct (shr_fexp_pos _ e' loc_Exact P2 E1) as [P3 E3].
  destruct (shr_fexp prec emax (round_nearest_even (shr_m mrs') (loc_of_shr_record mrs')) e' loc_Exact)
    as [mrs'' e''] eqn:S2. cbn [fst snd] in *.
  destruct (shr_m mrs'') as [|q|q]; try lia.
  destruct (Z.leb e'' (emax - prec)); discriminate.
Qed.

Lemma float_of_Z_not_zero (z : Z) (s : bool) :
  z <> 0 -> float_of_Z z <> S754_zero s.
Proof.
  intros Hz. unfold float_of_Z, binary_normalize.
  assert (R : forall sx p, binary_round prec emax sx p 0 <> S754_zero s).
  { intros sx p. unfold binary_round.
    destruct (shl_align p 0 (fexp prec emax (Z.pos (digits2_pos p) + 0))) as [mz ez] eqn:A.
    apply binary_round_aux_not_zero; [lia|].
    unfold shl_align in A.
    destruct (fexp prec emax (Z.pos (digits2_pos p) + 0) - 0) eqn:F;
      injection A as <- <-; unfold fexp, emin, prec, emax in *; lia. }
  destruct z; [congruence | apply R | apply R].
Qed.

Local Close Scope Z_scope.

Lemma feqb_zero_false (f : pyfloat) :
  (forall s, f <> S754_zero s) -> feqb f fzero = false.
Proof.
  intros H. destruct f as [s|s| |s m e]; try reflexivity.
  - now contradiction (H s).
  - now destruct s.
  - now destruct s.
Qed.

(** ** The sidecar parser *)

Ltac bind_inv H :=
  repeat match type of H with
    | bind ?r _ = Ok _ =>
        let E := fresh "E" in
        destruct r eqn:E; cbn [bind] in H; [|discriminate H]
    end.

Lemma parse_google_json_inv (B : PyBuiltins) (data : pyval) (md : GoogleMetadata) :
  parse_google_json B (Some data) = Ok (Some md) ->
  exists lat lon alt,
    geo_field data "latitude" = Some lat /\
    geo_field data "longitude" = Some lon /\
    geo_field data "altitude" = Some alt /\
    parse_gps B lat lon alt = Ok (latitude md, longitude md, altitude md) /\
    py_get data "favorited" (PBool false) = Ok (favorited md).
Proof.
  unfold parse_google_json. intros H. bind_inv H.
  injection H as <-. cbn [latitude longitude altitude favorited].
  do 3 eexists. unfold geo_field.
  repeat match goal with
         | E : py_get _ _ _ = Ok _ |- _ => rewrite E
         end.
  repeat (split; [reflexivity|]).
  match goal with
  | E : parse_gps _ _ _ _ = Ok ?g |- _ => rewrite E; now destruct g as [[? ?] ?]
  end.
Qed.

Lemma py_float_nonzero (B : PyBuiltins) (v : pyval) (x : pyfloat) :
  (forall s, v <> PStr s) ->
  ne_zero v = true -> py_float B v = Ok x -> feqb x fzero = false.
Proof.
  intros Hs Hn Hf. destruct v as [|b|z|f|s|l|d]; simpl in *; try discriminate.
  - destruct b; [|discriminate]. injection Hf as <-. reflexivity.
  - assert (Hz : z <> 0%Z).
    { intros ->. discriminate Hn. }
    pose proof (fun s => float_of_Z_not_zero z s Hz) as NZ.
    unfold float_of_Z in *. fold prec emax in *.
    destruct (binary_normalize prec emax z 0 false) as [s|s| |s m e] eqn:F;
      try discriminate; injection Hf as <-; apply feqb_zero_false; auto;
      intros s'; discriminate.
  - injection Hf as <-. now destruct (feqb f fzero).
  - now contradiction (Hs s).
Qed.


(** What the GPS block leaves in the record. *)
Lemma parse_gps_cases (B : PyBuiltins) (lat lon alt : pyval)
  (la lo al : option pyfloat) :
  parse_gps B lat lon alt = Ok (la, lo, al) ->
  (la = None /\ lo = None /\ al = None /\
   (is_not_none lat && is_not_none lon && (ne_zero lat || ne_zero lon)) = false)
  \/
  (exists x y,
     la = Some x /\ lo = Some y /\
     is_not_none lat = true /\ is_not_none lon = true /\
     (ne_zero lat || ne_zero lon) = true /\
     py_float B lat = Ok x /\ py_float B lon = Ok y /\
     (al = None \/
      exists a, al = Some a /\ is_not_none alt = true /\ ne_zero alt = true /\
                py_float B alt = Ok a)).
Proof.
  unfold parse_gps. intros H.
  destruct (is_not_none lat && is_not_none lon) eqn:N; cbn [andb].
  - destruct (ne_zero lat || ne_zero lon) eqn:Z.
    + right. apply andb_prop in N as [N1 N2]. bind_inv H.
      destruct (is_not_none alt && ne_zero alt) eqn:A.
      * bind_inv H. injection H as <- <- <-. apply andb_prop in A as [A1 A2].
        do 2 eexists. repeat (split; [reflexivity || assumption|]).
        right. eexists. repeat split; assumption.
      * injection H as <- <- <-.
        do 2 eexists. repeat (split; [reflexivity || assumption|]). now left.
    + left. injection H as <- <- <-. auto.
  - left. injection H as <- <- <-. auto.
Qed.



(** C8 (as the code has it). [favorited] is [False] when the key is
    absent; when the key is present the field is the JSON value as it
    stands, whatever its type: nothing is coerced to a boolean. *)
Theorem favorited_is_raw_value
  (B : PyBuiltins) (data : pyval) (md : GoogleMetadata)
  (Hparse : parse_google_json B (Some data) = Ok (Some md)) :
  exists d, data = PDict d /\
            favorited md = match lookup d "favorited" with
                           | Some v => v
                           | None => PBool false
                           end.
Proof.
  destruct (parse_google_json_inv _ _ _ Hparse) as (_ & _ & _ & _ & _ & _ & _ & F).
  destruct data as [| | | | | |d]; try discriminate F.
  exists d. split; [reflexivity|]. simpl in F. injection F as <-. reflexivity.
Qed.



Lemma favorited_is_raw_value_witness :
  exists md d,
    parse_google_json example_builtins (Some sidecar_located) = Ok (Some md) /\
    sidecar_located = PDict d /\
    favorited md = match lookup d "favorited" with
                   | Some v => v
                   | None => PBool false
                   end.
Proof.
  eexists.
  destruct (favorited_is_raw_value example_builtins sidecar_located _
              ltac:(vm_compute; reflexivity)) as (d & E & F).
  exists d. split; [vm_compute; reflexivity|]. split; [exact E | exact F].
Defined.

(** C8, counterexample.  A [favorited] that is text, or null, is stored
    as it is: the field is not [False]. *)
Lemma favorited_not_coerced :
  (exists md,
     parse_google_json example_builtins (Some sidecar_favorited_text)
     = Ok (Some md) /\
     favorited md = PStr "maybe" /\ favorited md <> PBool false) /\
  (exists md,
     parse_google_json example_builtins (Some sidecar_favorited_null)
     = Ok (Some md) /\
     favorited md = PNone /\ favorited md <> PBool false).
Proof.
  split; eexists; (split; [vm_compute; reflexivity|]); split;
    try reflexivity; discriminate.
Qed.

(** ** Verification of one file *)

Lemma verify_metadata_success (B : PyBuiltins) (actual : option tags)
  (expected : GoogleMetadata) (r : VerificationResult) :
  verify_metadata B actual expected = Ok r ->
  success r = date_match r && gps_match r && description_match r.
Proof.
  unfold verify_metadata. destruct actual as [a|].
  - intros H. bind_inv H. injection H as <-. reflexivity.
  - intros H. injection H as <-. reflexivity.
Qed.




(** ** Verification of a linked pair *)

Lemma In_str_in (x : string) (l : list string) : In x l <-> str_in x l = true.
Proof.
  unfold str_in. rewrite existsb_exists. split.
  - intros H. exists x. split; [exact H | apply String.eqb_refl].
  - intros (y & H & E). apply String.eqb_eq in E. now subst.
Qed.

Lemma linked_issues_spec (v vv : VerificationResult) :
  (In "image date" (linked_issues v vv) <-> date_match v = false) /\
  (In "image GPS" (linked_issues v vv) <-> gps_match v = false) /\
  (In "image description" (linked_issues v vv) <-> description_match v = false) /\
  (In "video date" (linked_issues v vv) <-> date_match vv = false) /\
  (In "video GPS" (linked_issues v vv) <-> gps_match vv = false) /\
  (In "video description" (linked_issues v vv)
   <-> description_match vv = false).
Proof.
  rewrite !In_str_in. unfold linked_issues.
  destruct (date_match v), (gps_match v), (description_match v),
    (date_match vv), (gps_match vv), (description_match vv);
    vm_compute; intuition congruence.
Qed.

(** C6. For a linked pair that reaches verification, each overall match
    flag is the conjunction of the image-side and the video-side flag,
    the overall success is the conjunction of both sides' successes and
    of the three overall flags, and on failure the message lists exactly
    the failing (side, field) combinations; when the image verifies and
    the video fails the GPS match only, the pair fails and the message
    names the video GPS. *)
Theorem linked_pair_verification
  {W : Type} (E : Engine W) (B : PyBuiltins) (s s1 s2 : W)
  (media json vp : Path) (metadata : GoogleMetadata)
  (written video_written : string) (v vv : VerificationResult)
  (Hparse : parse_google_json B (load_json E s json) = Ok (Some metadata))
  (Hw1 : write_metadata_to_file E B s media metadata = (s1, (true, written)))
  (Hw2 : write_metadata_to_file E B s1 vp metadata
         = (s2, (true, video_written)))
  (Hv : verify_metadata B (get_metadata E s2 media) metadata = Ok v)
  (Hvv : verify_metadata B (get_metadata E s2 vp) metadata = Ok vv) :
  exists r text,
    process_file E B true s media json true (Some vp)
    = (s2, Ok (success r, text, Some r)) /\
    date_match r = date_match v && date_match vv /\
    gps_match r = gps_match v && gps_match vv /\
    description_match r = description_match v && description_match vv /\
    success r = success v && success vv /\
    success r = date_match r && gps_match r && description_match r /\
    (success r = false ->
     message r = ("Verification failed on: "
                  ++ join ", " (linked_issues v vv))%string /\
     text = ("Verification failed: " ++ message r)%string /\
     (In "image date" (linked_issues v vv) <-> date_match v = false) /\
     (In "image GPS" (linked_issues v vv) <-> gps_match v = false) /\
     (In "image description" (linked_issues v vv)
      <-> description_match v = false) /\
     (In "video date" (linked_issues v vv) <-> date_match vv = false) /\
     (In "video GPS" (linked_issues v vv) <-> gps_match vv = false) /\
     (In "video description" (linked_issues v vv)
      <-> description_match vv = false)) /\
    (success v = true -> date_match vv = true -> gps_match vv = false ->
     description_match vv = true ->
     success r = false /\
     message r = "Verification failed on: video GPS").
Proof.
  pose proof (verify_metadata_success _ _ _ _ Hv) as Sv.
  pose proof (verify_metadata_success _ _ _ _ Hvv) as Svv.
  exists (combine_linked v vv).
  exists (if negb (success (combine_linked v vv))
          then ("Verification failed: " ++ message (combine_linked v vv))%string
          else (written ++ "; Video: " ++ video_written)%string).
  split.
  { unfold process_file. cbn [negb]. rewrite Hparse, Hw1. cbn [negb].
    rewrite Hw2. cbn [negb]. unfold verify_phase. rewrite Hv. cbn [bind].
    rewrite Hvv. cbn [bind].
    destruct (success (combine_linked v vv)); reflexivity. }
  cbn [combine_linked success date_match gps_match description_match message].
  repeat (split; [reflexivity|]).
  split.
  { rewrite Sv, Svv.
    destruct (date_match v), (gps_match v), (description_match v),
      (date_match vv), (gps_match vv), (description_match vv); reflexivity. }
  split.
  - intros F. rewrite F. cbn [negb]. repeat (split; [reflexivity|]).
    apply linked_issues_spec.
  - intros H1 H2 H3 H4. rewrite Svv, H1, H2, H3, H4. cbn [andb negb].
    split; [reflexivity|].
    rewrite Sv in H1. unfold linked_issues.
    destruct (date_match v), (gps_match v), (description_match v);
      try discriminate H1.
    rewrite H2, H3, H4. reflexivity.
Qed.

Lemma linked_pair_verification_witness :
  exists r text,
    process_file
      (one_pair_engine (Some sidecar_located)
         (read_back (float_lit 377749 4) (float_lit 1224194 4)))
      example_builtins true tt a_jpg a_json true (Some a_mp4)
    = (tt, Ok (success r, text, Some r)) /\
    success r = false /\
    message r = "Verification failed on: video GPS".
Proof.
  edestruct (linked_pair_verification
               (one_pair_engine (Some sidecar_located)
                  (read_back (float_lit 377749 4) (float_lit 1224194 4)))
               example_builtins tt tt tt a_jpg a_json a_mp4)
    as (r & text & P & _ & _ & _ & _ & _ & _ & L).
  - vm_compute; reflexivity.
  - vm_compute; reflexivity.
  - vm_compute; reflexivity.
  - vm_compute; reflexivity.
  - vm_compute; reflexivity.
  - exists r, text. split; [exact P|]. apply L; vm_compute; reflexivity.
Defined.

(** ** The commands and the missing [video_path] *)




Lemma attach_raises_at_once {W : Type} (E : Engine W) (B : PyBuiltins)
  (args : Args) (st : AttachState W) (p : MediaFilePair) :
  attach_step E B args st p = (st, Some AttributeError).
Proof. reflexivity. Qed.





(** ** Cleanup: what is deleted *)

Lemma cleanup_verified_step_keeps {W : Type} (E : Engine W) (B : PyBuiltins)
  (st : CleanupState W) (p : MediaFilePair) :
  let st' := fst (cleanup_verified_step E B st p) in
  cl_run st' = cl_run st /\ deleted st' = deleted st /\
  cl_failed st' = cl_failed st.
Proof.
  cbv zeta. unfold cleanup_verified_step.
  destruct (parse_google_json B _) as [[metadata|]|e]; cbn [fst]; auto.
  destruct (verify_metadata B _ metadata) as [v|e]; cbn [fst]; auto.
Qed.

(** With verification nothing is ever deleted: a pair either is skipped
    for its sidecar, or ends the loop with an exception. *)
Lemma cleanup_verified_loop_keeps {W : Type} (E : Engine W) (B : PyBuiltins)
  (l : list MediaFilePair) (st : CleanupState W) :
  let st' := fst (for_each (cleanup_verified_step E B) l st) in
  cl_run st' = cl_run st /\ deleted st' = deleted st /\
  cl_failed st' = cl_failed st.
Proof.
  cbv zeta. revert st; induction l as [|p l IH]; intros st; simpl; auto.
  pose proof (cleanup_verified_step_keeps E B st p) as K. cbv zeta in K.
  destruct (cleanup_verified_step E B st p) as [st1 [e|]]; cbn [fst] in *;
    [exact K|].
  destruct K as (K1 & K2 & K3). destruct (IH st1) as (I1 & I2 & I3).
  repeat split; congruence.
Qed.

Lemma cleanup_unverified_loop_unlinked {W : Type} (E : Engine W) (B : PyBuiltins)
  (l : list MediaFilePair) (st : CleanupState W) (x : Path) :
  In x (unlinked (cl_run (fst (for_each (cleanup_unverified_step E B) l st)))) ->
  In x (unlinked (cl_run st)) \/ In x (map json_path l).
Proof.
  revert st; induction l as [|p l IH]; intros st; simpl; auto.
  intros H. apply IH in H as [H|H]; auto.
  unfold delete_sidecar in H.
  destruct (unlink E (world (cl_run st)) (json_path p)) as [s' [e|]];
    cbn [cl_run unlinked say] in H; auto.
  apply in_app_or in H as [H|[<-|[]]]; auto.
Qed.

(** Whatever the mode, cleanup deletes sidecars of pairs only; so for a
    listing without repeated paths no orphan sidecar is deleted. *)
Lemma cleanup_keeps_orphans
  {W : Type} (E : Engine W) (B : PyBuiltins) (C : Console) (args : Args) (s : W)
  (x : Path) :
  let result := scan_directory (file_system E s) (arg_directory args)
                  (arg_recursive args) in
  NoDup (listing (file_system E s) (arg_directory args) (arg_recursive args)) ->
  In x (unlinked (fst (cmd_cleanup E B C args s))) ->
  In x (map json_path (pairs result)) /\ ~ In x (orphan_jsons result).
Proof.
  cbv zeta. intros Hnd Hx.
  assert (Hp : In x (map json_path
                       (pairs (scan_directory (file_system E s)
                                 (arg_directory args) (arg_recursive args))))).
  { revert Hx. unfold cmd_cleanup.
    destruct (negb (path_exists E s (arg_directory args))); [intros []|].
    destruct (arg_no_verify args); cbn [negb andb].
    - destruct (pairs _) as [|p0 ps] eqn:P; [intros []|].
      destruct (negb (arg_yes args) && _); [intros []|].
      destruct (for_each _ _ _) as [st [e|]] eqn:F; cbn [fst]; intros Hx;
        match type of F with
        | for_each _ _ ?init = _ =>
            pose proof (cleanup_unverified_loop_unlinked E B (p0 :: ps) init x)
              as U
        end; rewrite F in U; cbn [fst] in U.
      + destruct (U Hx) as [[]|H]; exact H.
      + assert (Hx' : In x (unlinked (cl_run st))).
        { destruct (orphan_jsons _); exact Hx. }
        destruct (U Hx') as [[]|H]; exact H.
    - destruct (negb (fst (exiftool_available C))); [intros []|].
      destruct (pairs _) as [|p0 ps] eqn:P; [intros []|].
      destruct (negb (arg_yes args) && _); [intros []|].
      destruct (for_each _ _ _) as [st [e|]] eqn:F; cbn [fst]; intros Hx;
        match type of F with
        | for_each _ _ ?init = _ =>
            pose proof (cleanup_verified_loop_keeps E B (p0 :: ps) init) as K
        end; cbv zeta in K; rewrite F in K; cbn [fst] in K;
        destruct K as (K & _).
      + rewrite K in Hx. destruct Hx.
      + assert (Hx' : In x (unlinked (cl_run st))).
        { destruct (orphan_jsons _); exact Hx. }
        rewrite K in Hx'. destruct Hx'. }
  split; [exact Hp|].
  pose proof (scan_all_paths_NoDup _ _ _ Hnd) as N.
  unfold all_paths in N. apply NoDup_app_remove_l in N.
  intros Ho. apply (NoDup_app_disjoint _ _ x N Hp).
  apply in_or_app. left. exact Ho.
Qed.

(** C1, at a failing input.  One pair whose photo was never tagged:
    the verification of the pair fails, and [cmd_cleanup] with
    verification then raises [AttributeError] at [pair.video_path].
    The sidecar is not deleted, but the pair is not counted as skipped:
    no cleanup result is printed and [main] exits with code 1. *)
Lemma cleanup_failed_verification_raises :
  (exists metadata v,
     parse_google_json example_builtins (load_json untagged_photo tt a_json)
     = Ok (Some metadata) /\
     verify_metadata example_builtins (get_metadata untagged_photo tt a_jpg)
       metadata = Ok v /\
     success v = false) /\
  pairs (scan_directory (file_system untagged_photo tt) ["/"; "t"] false)
  = [a_pair] /\
  exists r,
    cmd_cleanup untagged_photo example_builtins example_console example_args tt
    = (r, Raise AttributeError) /\
    unlinked r = [] /\
    (forall d f k, ~ In (print_cleanup_results d f k) (console r)) /\
    exists r',
      main untagged_photo example_builtins example_console cleanup
        example_args tt = (r', 1) /\
      forall d f k, ~ In (print_cleanup_results d f k) (console r').
Proof.
  split.
  { do 2 eexists. split; [vm_compute; reflexivity|].
    split; [vm_compute; reflexivity | reflexivity]. }
  split; [vm_compute; reflexivity|].
  eexists. split; [vm_compute; reflexivity|]. split; [reflexivity|].
  split.
  - intros d f k H. cbn [console] in H.
    repeat (destruct H as [H|H]; [discriminate H|]). exact H.
  - eexists. split; [vm_compute; reflexivity|].
    intros d f k H. cbn [console] in H.
    repeat (destruct H as [H|H]; [discriminate H|]). exact H.
Qed.

(** ** The examples of the docstrings, and one scan *)

Example media_filename_examples :
  get_media_filename_from_json "photo.jpg.supplemental-metadata.json"
  = Some "photo.jpg" /\
  get_media_filename_from_json "video.mp4.supplemental-met.json"
  = Some "video.mp4" /\
  get_media_filename_from_json "image.png.su.json" = Some "image.png" /\
  get_media_filename_from_json "IMAGE.PNG.SU.JSON" = Some "IMAGE.PNG" /\
  get_media_filename_from_json "notes.json" = None.
Proof. repeat split. Qed.

Example media_file_examples :
  is_media_file "photo.JPG" = true /\ is_media_file ".jpg" = false /\
  is_media_file "archive.tar.gz" = false /\ is_media_file "clip.mov" = true.
Proof. repeat split. Qed.

Example scan_example :
  scan_directory
    (flat_dir ["a.jpg"; "a.jpg.supplemental-metadata.json"; "a.jpg.su.json";
               ".su.json"; "b.png"; "c.mp4.su.json"; "metadata.json"])
    ["/"; "t"] false
  = {| pairs := [{| media_path := ["/"; "t"; "a.jpg"];
                    json_path := ["/"; "t"; "a.jpg.su.json"] |}];
       orphan_jsons := [["/"; "t"; "c.mp4.su.json"]];
       orphan_media := [["/"; "t"; "b.png"]];
       skipped_jsons := [["/"; "t"; "metadata.json"]];
       errors := [] |}.
Proof. vm_compute. reflexivity. Qed.

(* ================================================================== *)
(** * Part III. Further properties of the code                         *)
(* ================================================================== *)

(** ** The filename matcher *)

Lemma first_match_start (patterns : list string) (s : string) :
  first_match patterns s
  = option_map (fun start => take start s) (first_start patterns s).
Proof.
  induction patterns as [|p ps IH]; simpl; [reflexivity|].
  destruct (re_search p s); [reflexivity | exact IH].
Qed.

Lemma existsb_first_start (patterns : list string) (s : string) :
  existsb (fun pattern => match re_search pattern s with
                          | Some _ => true
                          | None => false
                          end) patterns
  = match first_start patterns s with Some _ => true | None => false end.
Proof.
  induction patterns as [|p ps IH]; simpl; [reflexivity|].
  destruct (re_search p s); [reflexivity | exact IH].
Qed.

Lemma take_drop (n : nat) (s : string) : (take n s ++ drop n s)%string = s.
Proof.
  revert s; induction n as [|n IH]; intros [|c s]; simpl; try reflexivity.
  now rewrite IH.
Qed.

Lemma length_take_drop (n : nat) (s : string) :
  n <= String.length s ->
  String.length (take n s) = n /\ String.length (drop n s) = String.length s - n.
Proof.
  revert s; induction n as [|n IH]; intros [|c s] H; simpl in *; try lia.
  destruct (IH s) as [A B]; lia.
Qed.

Lemma first_start_spec (patterns : list string) (s : string) (start : nat) :
  first_start patterns s = Some start ->
  exists pattern, In pattern patterns /\ re_search pattern s = Some start.
Proof.
  induction patterns as [|p ps IH]; simpl; [discriminate|].
  destruct (re_search p s) as [i|] eqn:E.
  - intros H; injection H as <-. exists p. auto.
  - intros H. destruct (IH H) as (q & Hq & R). exists q. auto.
Qed.

(** X1. The two functions of the matcher agree: a name is a metadata
    JSON exactly when it is not on the skip list and a media name can be
    derived from it, so the [None] branch after [is_metadata_json] in the
    scanner is never taken; and no name of the skip list is a metadata
    JSON. *)
Theorem is_metadata_json_iff_media_name (filename : string) :
  (is_metadata_json filename = true <->
   str_in filename SKIP_FILES = false /\
   exists media_name, get_media_filename_from_json filename = Some media_name)
  /\ (str_in filename SKIP_FILES = true -> is_metadata_json filename = false
      /\ get_media_filename_from_json filename = None).
Proof.
  unfold is_metadata_json, get_media_filename_from_json.
  rewrite existsb_first_start, first_match_start.
  split.
  - destruct (str_in filename SKIP_FILES).
    + split; [discriminate | intros [H _]; discriminate H].
    + destruct (first_start JSON_PATTERNS filename) as [i|]; simpl.
      * split; [intros _; split; eauto | reflexivity].
      * split; [discriminate | intros [_ [m H]]; discriminate H].
  - intros H. split; [now rewrite H|].
    unfold str_in, SKIP_FILES in H. simpl in H.
    apply orb_prop in H as [H|H]; [|apply orb_prop in H as [H|H]];
      try discriminate H; apply String.eqb_eq in H; subst; reflexivity.
Qed.

Lemma is_metadata_json_iff_media_name_witness :
  is_metadata_json "metadata.json" = false /\
  get_media_filename_from_json "metadata.json" = None.
Proof.
  apply (proj2 (is_metadata_json_iff_media_name "metadata.json")). reflexivity.
Defined.

(** X2. The derived media name is a strict prefix of the sidecar name:
    what is cut off is between 8 and 28 characters long (a pattern of
    the table, and at most one newline that ends the name). *)
Theorem media_name_is_strict_prefix (json_filename : string) :
  match get_media_filename_from_json json_filename with
  | Some media_name =>
      exists cut, json_filename = (media_name ++ cut)%string /\
                  8 <= String.length cut <= 28 /\
                  String.length media_name < String.length json_filename
  | None => True
  end.
Proof.
  unfold get_media_filename_from_json. rewrite first_match_start.
  destruct (first_start JSON_PATTERNS json_filename) as [start|] eqn:F;
    simpl; [|exact I].
  destruct (first_start_spec _ _ _ F) as (p & Hp & R).
  destruct (re_search_leftmost _ _ _ R) as (M & L & _).
  exists (drop start json_filename).
  split; [symmetry; apply take_drop|].
  destruct (length_take_drop start json_filename L) as [T D].
  apply match_at_end_length in M.
  assert (8 <= String.length p <= 27).
  { simpl in Hp. destruct Hp as [<-|[<-|[<-|[<-|[]]]]]; simpl; lia. }
  lia.
Qed.

(** *** Upper and lower case *)

Lemma lower_ascii_idem (c : ascii) : lower_ascii (lower_ascii c) = lower_ascii c.
Proof. destruct c as [[] [] [] [] [] [] [] []]; reflexivity. Qed.

Lemma lower_ascii_newline (c : ascii) :
  Ascii.eqb (lower_ascii c) newline = Ascii.eqb c newline.
Proof. destruct c as [[] [] [] [] [] [] [] []]; reflexivity. Qed.

Lemma lower_ascii_dot (c : ascii) :
  Ascii.eqb (lower_ascii c) "."%char = Ascii.eqb c "."%char.
Proof. destruct c as [[] [] [] [] [] [] [] []]; reflexivity. Qed.

Lemma lower_idem (s : string) : lower (lower s) = lower s.
Proof.
  induction s as [|c s IH]; simpl; [reflexivity|].
  now rewrite lower_ascii_idem, IH.
Qed.

Lemma lower_append (a b : string) :
  lower (a ++ b)%string = (lower a ++ lower b)%string.
Proof. induction a as [|c a IH]; simpl; [reflexivity | now rewrite IH]. Qed.

Lemma length_lower (s : string) : String.length (lower s) = String.length s.
Proof. induction s as [|c s IH]; simpl; [reflexivity | now rewrite IH]. Qed.

Lemma drop_lower (n : nat) (s : string) : drop n (lower s) = lower (drop n s).
Proof.
  revert s; induction n as [|n IH]; intros [|c s]; simpl; try reflexivity.
  apply IH.
Qed.

Lemma match_at_end_lower (lit s : string) :
  match_at_end lit (lower s) = match_at_end lit s.
Proof.
  revert s; induction lit as [|a lit IH]; intros s.
  - destruct s as [|c [|d s]]; simpl; try reflexivity.
    apply lower_ascii_newline.
  - destruct s as [|b s]; simpl; [reflexivity|].
    unfold ci_char_eq. now rewrite lower_ascii_idem, IH.
Qed.

Lemma re_search_lower (lit s : string) :
  re_search lit (lower s) = re_search lit s.
Proof.
  induction s as [|c s IH].
  - reflexivity.
  - change (lower (String c s)) with (String (lower_ascii c) (lower s)).
    cbn [re_search].
    change (String (lower_ascii c) (lower s)) with (lower (String c s)).
    rewrite match_at_end_lower, IH. reflexivity.
Qed.

Lemma first_start_lower (patterns : list string) (s : string) :
  first_start patterns (lower s) = first_start patterns s.
Proof.
  induction patterns as [|p ps IH]; simpl; [reflexivity|].
  now rewrite re_search_lower, IH.
Qed.

(** Where the matcher cuts a name that ends with [tail], for a tail
    that holds a match only at its start. *)
Lemma first_start_append (media_name tail : string) :
  (forall p, In p JSON_PATTERNS -> no_inner_match p tail = true) ->
  2 <= String.length tail ->
  first_start JSON_PATTERNS (media_name ++ tail)%string
  = option_map (Nat.add (String.length media_name))
      (first_start JSON_PATTERNS tail).
Proof.
  intros Hn Ht. unfold JSON_PATTERNS in *.
  cbn [first_start].
  rewrite !re_search_append by (try apply Hn; simpl; auto 6).
  repeat match goal with
         | |- context [re_search ?l tail] => destruct (re_search l tail)
         end; reflexivity.
Qed.

Lemma first_start_of_suffix (media_name sfx : string) :
  In sfx JSON_PATTERNS ->
  first_start JSON_PATTERNS (media_name ++ sfx)%string
  = Some (String.length media_name) /\
  first_start JSON_PATTERNS (media_name ++ sfx ++ String newline "")%string
  = Some (String.length media_name).
Proof.
  intros Hin. simpl in Hin.
  destruct Hin as [<-|[<-|[<-|[<-|[]]]]];
    (split;
     (rewrite first_start_append;
      [ match goal with
        | |- context [first_start ?ps ?t] =>
            let r := eval vm_compute in (first_start ps t) in
            change (first_start ps t) with r
        end; cbn [option_map]; now rewrite Nat.add_0_r
      | intros p Hp; simpl in Hp;
        destruct Hp as [<-|[<-|[<-|[<-|[]]]]]; vm_compute; reflexivity
      | vm_compute; lia ])).
Qed.

(** X3. The suffix is recognised whatever its case: for any text that
    lower-cases to a pattern of the table, the name [media_name + text]
    is a metadata JSON (it cannot be on the skip list) and its media
    name is exactly [media_name], in its own case. *)
Theorem media_name_ignores_suffix_case (media_name text sfx : string)
  (Hsfx : In sfx JSON_PATTERNS)
  (Htext : lower text = sfx) :
  get_media_filename_from_json (media_name ++ text)%string = Some media_name /\
  is_metadata_json (media_name ++ text)%string = true.
Proof.
  assert (F : first_start JSON_PATTERNS (media_name ++ text)%string
              = Some (String.length media_name)).
  { rewrite <- first_start_lower, lower_append, Htext.
    rewrite (proj1 (first_start_of_suffix (lower media_name) sfx Hsfx)).
    now rewrite length_lower. }
  split.
  - unfold get_media_filename_from_json.
    rewrite first_match_start, F. simpl. now rewrite take_append.
  - unfold is_metadata_json. rewrite existsb_first_start, F.
    destruct (str_in (media_name ++ text) SKIP_FILES) eqn:K; [|reflexivity].
    exfalso. unfold str_in, SKIP_FILES in K. simpl in K.
    apply orb_prop in K as [K|K]; [|apply orb_prop in K as [K|K]];
      try discriminate K; apply String.eqb_eq in K; rewrite K in F;
      discriminate F.
Qed.

Lemma media_name_ignores_suffix_case_witness :
  get_media_filename_from_json "IMG_0001.JPG.Supplemental-Metadata.JSON"
  = Some "IMG_0001.JPG".
Proof.
  refine (proj1 (media_name_ignores_suffix_case
                   "IMG_0001.JPG" ".Supplemental-Metadata.JSON"
                   ".supplemental-metadata.json" _ _)).
  - simpl; auto.
  - reflexivity.
Defined.

(** X4. [$] also matches before a newline that ends the name: a name
    that is a media name, a suffix of the table and one final newline is
    still cut at the suffix. *)
Theorem media_name_before_final_newline (media_name sfx : string)
  (Hsfx : In sfx JSON_PATTERNS) :
  get_media_filename_from_json (media_name ++ sfx ++ String newline "")%string
  = Some media_name.
Proof.
  unfold get_media_filename_from_json. rewrite first_match_start.
  rewrite (proj2 (first_start_of_suffix media_name sfx Hsfx)).
  simpl. now rewrite take_append.
Qed.

Lemma media_name_before_final_newline_witness :
  get_media_filename_from_json
    ("photo.jpg" ++ ".su.json" ++ String newline "")%string
  = Some "photo.jpg".
Proof.
  apply (media_name_before_final_newline "photo.jpg" ".su.json").
  simpl; auto.
Defined.

(** *** Media names *)

Lemma rfind_dot_lower (s : string) : rfind_dot (lower s) = rfind_dot s.
Proof.
  induction s as [|c s IH]; simpl; [reflexivity|].
  now rewrite IH, lower_ascii_dot.
Qed.

Lemma suffix_lower (s : string) : suffix (lower s) = lower (suffix s).
Proof.
  unfold suffix. rewrite rfind_dot_lower, length_lower.
  destruct (rfind_dot s) as [i|]; [|reflexivity].
  destruct ((0 <? i) && (i <? String.length s - 1)); [|reflexivity].
  apply drop_lower.
Qed.

Lemma is_media_file_lower (filename : string) :
  is_media_file (lower filename) = is_media_file filename.
Proof. unfold is_media_file. now rewrite suffix_lower, lower_idem. Qed.

(** X5. The media test ignores the case of the whole name, and a name
    whose only dot is its first character, or that ends with a dot or
    has no dot, is never a media file. *)
Theorem is_media_file_ignores_case (filename : string) :
  is_media_file (lower filename) = is_media_file filename /\
  (match rfind_dot filename with
   | Some i => i = 0 \/ i = String.length filename - 1
   | None => True
   end -> is_media_file filename = false).
Proof.
  split.
  - apply is_media_file_lower.
  - unfold is_media_file, suffix.
    destruct (rfind_dot filename) as [i|]; [|reflexivity].
    intros [->| ->]; [reflexivity|].
    rewrite Nat.ltb_irrefl, andb_false_r. reflexivity.
Qed.

Lemma rfind_dot_append (pre t : string) (k : nat) :
  rfind_dot t = Some k ->
  rfind_dot (pre ++ t)%string = Some (String.length pre + k).
Proof.
  intros H. induction pre as [|c pre IH]; simpl; [exact H|].
  now rewrite IH.
Qed.

Lemma drop_append_plus (pre t : string) (k : nat) :
  drop (String.length pre + k) (pre ++ t)%string = drop k t.
Proof. induction pre as [|c pre IH]; simpl; [reflexivity | exact IH]. Qed.

(** The text a pattern matches, in lower case, is the pattern, with a
    newline after it when the name ends with one. *)
Lemma match_at_end_text (lit t : string) :
  lower lit = lit ->
  match_at_end lit t = true ->
  lower t = lit \/ lower t = (lit ++ String newline "")%string.
Proof.
  revert t; induction lit as [|a lit IH]; intros t Hl H.
  - destruct t as [|c [|d t]]; simpl in H; try discriminate; auto.
    apply Ascii.eqb_eq in H. subst. right. reflexivity.
  - destruct t as [|b t]; simpl in H; [discriminate|].
    apply andb_prop in H as [C H]. simpl in Hl. injection Hl as La Ll.
    unfold ci_char_eq in C. apply Ascii.eqb_eq in C. rewrite La in C.
    simpl. rewrite <- C.
    destruct (IH t Ll H) as [E|E]; rewrite E; auto.
Qed.

Lemma json_tail_not_media (pre tail : string) (k : nat) :
  rfind_dot tail = Some k ->
  str_in (lower (drop k tail)) MEDIA_EXTENSIONS = false ->
  is_media_file (pre ++ tail)%string = false.
Proof.
  intros R N. unfold is_media_file, suffix.
  rewrite (rfind_dot_append pre tail k R).
  destruct ((0 <? String.length pre + k)
            && (String.length pre + k <? String.length (pre ++ tail) - 1));
    [|reflexivity].
  now rewrite drop_append_plus.
Qed.

(** X6. No name is both a metadata JSON and a media file: whatever comes
    before the suffix, the extension of a sidecar name is [.json]. *)
Theorem metadata_json_is_not_media (filename : string)
  (Hjson : is_metadata_json filename = true) :
  is_media_file filename = false.
Proof.
  unfold is_metadata_json in Hjson.
  destruct (str_in filename SKIP_FILES); [discriminate|].
  rewrite existsb_first_start in Hjson.
  destruct (first_start JSON_PATTERNS filename) as [start|] eqn:F;
    [|discriminate].
  destruct (first_start_spec _ _ _ F) as (p & Hp & R).
  destruct (re_search_leftmost _ _ _ R) as (M & _ & _).
  rewrite <- is_media_file_lower, <- (take_drop start filename), lower_append.
  simpl in Hp.
  destruct Hp as [<-|[<-|[<-|[<-|[]]]]];
    (destruct (match_at_end_text _ _ eq_refl M) as [E|E]; rewrite E;
     (eapply json_tail_not_media; [vm_compute; reflexivity | reflexivity])).
Qed.

Lemma metadata_json_is_not_media_witness :
  is_media_file "clip.mp4.supplemental-met.json" = false.
Proof.
  apply (metadata_json_is_not_media "clip.mp4.supplemental-met.json").
  reflexivity.
Defined.

(** ** The scanner *)

Lemma exists_last_writer (fs : FileSystem) (l : list Path) (e k : Path) :
  In e l -> sidecar_target fs e = Some k -> exists v, last_writer fs l k v.
Proof.
  induction l as [|a l IH] using rev_ind; intros Hin T; [destruct Hin|].
  assert (D : sidecar_target fs a = Some k \/ sidecar_target fs a <> Some k).
  { destruct (sidecar_target fs a) as [k'|]; [|right; discriminate].
    destruct (path_eq_dec k' k) as [->|N]; [left; reflexivity|].
    right; congruence. }
  destruct D as [Ta|Na].
  - exists a. apply last_writer_snoc. left; auto.
  - apply in_app_or in Hin as [Hin|[<-|[]]]; [|contradiction].
    destruct (IH Hin T) as (v & Hv). exists v.
    apply last_writer_snoc. right; auto.
Qed.

Lemma last_writer_in (fs : FileSystem) (l : list Path) (k v : Path) :
  last_writer fs l k v -> In v l /\ sidecar_target fs v = Some k.
Proof.
  intros (l1 & l2 & -> & T & _). split; [|exact T].
  apply in_or_app. right. left. reflexivity.
Qed.

Section ScanShape.
Variables (fs : FileSystem) (l : list Path).

Let c := fold_left (classify fs) l scan_init.
Let m := fold_left (match_item (media_files c)) (json_files c) match_init.

Lemma in_m_pairs (p : MediaFilePair) :
  In p (m_pairs m) <->
  In (media_path p, json_path p) (json_files c) /\ In (media_path p) (media_files c).
Proof.
  unfold m. rewrite match_loop_pairs. simpl. rewrite in_map_iff. split.
  - intros ([k v] & <- & H). apply filter_In in H as [H I]. simpl.
    split; [exact H | now apply path_in_true].
  - intros [H I]. exists (media_path p, json_path p). split.
    + now destruct p.
    + apply filter_In. split; [exact H | now apply path_in_true].
Qed.

Lemma pair_shape (p : MediaFilePair) :
  In p (m_pairs m) ->
  In (json_path p) l /\ fs_is_file fs (json_path p) = true /\
  is_metadata_json (name (json_path p)) = true /\
  In (media_path p) l /\ fs_is_file fs (media_path p) = true /\
  is_media_file (name (media_path p)) = true /\
  exists media_name,
    get_media_filename_from_json (name (json_path p)) = Some media_name /\
    media_name <> "" /\
    media_path p = joinpath (parent (json_path p)) media_name.
Proof.
  destruct (first_loop_spec fs l) as (_ & _ & Hmi & _ & Hj).
  intros H. apply in_m_pairs in H as [J M].
  apply Hj, last_writer_in in J as [Jin T].
  apply sidecar_target_Some in T as (F & Js & mn & G & Ne & E).
  apply Hmi in M as [Min Me].
  unfold is_media_entry in Me.
  apply andb_prop in Me as [Me Mf]. apply andb_prop in Me as [Me _].
  apply andb_prop in Me as [Mfile _].
  repeat (split; [assumption|]). exists mn. auto.
Qed.

Lemma pairs_one_to_one :
  NoDup (map media_path (m_pairs m)) /\ NoDup (map json_path (m_pairs m)).
Proof.
  destruct (first_loop_spec fs l) as (_ & _ & _ & Hk & _).
  split.
  - unfold m, c. rewrite pairs_media_eq. now apply NoDup_map_filter.
  - unfold m, c. rewrite pairs_json_eq.
    apply NoDup_map_filter, json_files_values_NoDup.
Qed.

Lemma orphan_json_shape (x : Path) :
  In x (m_orphan_jsons m) ->
  In x l /\ fs_is_file fs x = true /\ is_metadata_json (name x) = true /\
  exists media_name,
    get_media_filename_from_json (name x) = Some media_name /\
    media_name <> "" /\
    ~ (In (joinpath (parent x) media_name) l /\
       is_media_entry fs (joinpath (parent x) media_name) = true).
Proof.
  destruct (first_loop_spec fs l) as (_ & _ & Hmi & _ & Hj).
  intros H. unfold m, c in H. apply in_orphan_jsons in H as (k & J & N).
  apply Hj, last_writer_in in J as [Jin T].
  apply sidecar_target_Some in T as (F & Js & mn & G & Ne & ->).
  repeat (split; [assumption|]). exists mn. repeat (split; [assumption|]).
  intros M. apply N. now apply Hmi.
Qed.

Lemma orphan_media_shape (x : Path) :
  In x (fold_left (orphan_step (matched_media m)) (media_files c) []) ->
  In x l /\ is_media_entry fs x = true /\
  forall e, In e l -> sidecar_target fs e <> Some x.
Proof.
  destruct (first_loop_spec fs l) as (_ & _ & Hmi & _ & Hj).
  rewrite orphan_loop. simpl. intros H. apply filter_In in H as [M N].
  pose proof (proj1 (Hmi x) M) as [Min Me]. repeat (split; [assumption|]).
  intros e He T.
  destruct (exists_last_writer fs l e x He T) as (v & Hv).
  apply Hj in Hv.
  assert (P : In x (matched_media m)).
  { unfold m, c. apply in_pairs_media. apply in_map_iff.
    exists {| media_path := x; json_path := v |}. split; [reflexivity|].
    apply in_m_pairs. simpl. auto. }
  apply path_in_true in P. rewrite P in N. discriminate N.
Qed.

Lemma media_filed_once (x : Path) :
  In x l -> is_media_entry fs x = true ->
  count_occ path_eq_dec
    (map media_path (m_pairs m)
     ++ fold_left (orphan_step (matched_media m)) (media_files c) []) x = 1.
Proof.
  destruct (first_loop_spec fs l) as (_ & Hm & Hmi & Hk & _).
  intros Hin Me.
  assert (N : NoDup (map media_path (m_pairs m)
                     ++ fold_left (orphan_step (matched_media m))
                          (media_files c) [])).
  { rewrite orphan_loop. simpl. apply NoDup_app.
    - apply pairs_one_to_one.
    - now apply NoDup_filter.
    - intros a Ha Hb. apply filter_In in Hb as [_ Hb].
      unfold m, c in Ha. apply in_pairs_media in Ha.
      apply path_in_true in Ha. fold c in Ha. fold m in Ha.
      rewrite Ha in Hb. discriminate Hb. }
  apply (proj1 (NoDup_count_occ' path_eq_dec _) N).
  rewrite orphan_loop. simpl. apply in_or_app.
  destruct (path_in x (matched_media m)) eqn:P.
  - left. apply path_in_true in P. unfold m, c. now apply in_pairs_media.
  - right. apply filter_In. split; [now apply Hmi | now rewrite P].
Qed.
End ScanShape.

(** X7. Every pair of a scan joins a sidecar of the listing with the
    media file of the listing that sits in the sidecar's own directory
    under the derived media name; and no media file and no sidecar
    occurs in two pairs. *)
Theorem pairs_are_siblings
  (fs : FileSystem) (directory : Path) (recursive : bool) :
  let r := scan_directory fs directory recursive in
  let l := listing fs directory recursive in
  Forall (fun p =>
            In (json_path p) l /\ fs_is_file fs (json_path p) = true /\
            is_metadata_json (name (json_path p)) = true /\
            In (media_path p) l /\ fs_is_file fs (media_path p) = true /\
            is_media_file (name (media_path p)) = true /\
            exists media_name,
              get_media_filename_from_json (name (json_path p))
              = Some media_name /\
              media_name <> "" /\
              media_path p = joinpath (parent (json_path p)) media_name)
         (pairs r) /\
  NoDup (map media_path (pairs r)) /\ NoDup (map json_path (pairs r)).
Proof.
  cbv zeta. unfold scan_directory.
  destruct (fs_exists fs directory); cbn [negb];
    [|repeat split; constructor].
  destruct (fs_is_dir fs directory); cbn [negb];
    [|repeat split; constructor].
  cbn [pairs]. fold (listing fs directory recursive).
  split; [|apply pairs_one_to_one].
  apply Forall_forall. intros p Hp. now apply pair_shape.
Qed.

(** X8. An orphan sidecar is a sidecar of the listing whose derived
    media path is no media file of the listing; an orphan media file is a
    media file of the listing that no sidecar of the listing derives. *)
Theorem orphans_have_no_counterpart
  (fs : FileSystem) (directory : Path) (recursive : bool) :
  let r := scan_directory fs directory recursive in
  let l := listing fs directory recursive in
  Forall (fun x =>
            In x l /\ fs_is_file fs x = true /\
            is_metadata_json (name x) = true /\
            exists media_name,
              get_media_filename_from_json (name x) = Some media_name /\
              media_name <> "" /\
              ~ (In (joinpath (parent x) media_name) l /\
                 is_media_entry fs (joinpath (parent x) media_name) = true))
         (orphan_jsons r) /\
  Forall (fun x =>
            In x l /\ is_media_entry fs x = true /\
            forall e, In e l -> sidecar_target fs e <> Some x)
         (orphan_media r).
Proof.
  cbv zeta. unfold scan_directory.
  destruct (fs_exists fs directory); cbn [negb];
    [|split; constructor].
  destruct (fs_is_dir fs directory); cbn [negb];
    [|split; constructor].
  cbn [orphan_jsons orphan_media]. fold (listing fs directory recursive).
  split; apply Forall_forall; intros x Hx.
  - now apply orphan_json_shape.
  - now apply orphan_media_shape.
Qed.

(** X9. A media file of the listing is never lost: it is the media of
    exactly one pair or is listed once among the orphan media, and never
    both. *)
Theorem media_file_filed_exactly_once
  (fs : FileSystem) (directory : Path) (recursive : bool) (x : Path)
  (Hex : fs_exists fs directory = true)
  (Hdir : fs_is_dir fs directory = true)
  (Hin : In x (listing fs directory recursive))
  (Hmedia : is_media_entry fs x = true) :
  let r := scan_directory fs directory recursive in
  count_occ path_eq_dec (map media_path (pairs r) ++ orphan_media r) x = 1.
Proof.
  cbv zeta. unfold scan_directory. rewrite Hex, Hdir. cbn [negb].
  cbn [pairs orphan_media]. fold (listing fs directory recursive).
  now apply media_filed_once.
Qed.

Lemma media_file_filed_exactly_once_witness :
  let r := scan_directory
             (flat_dir ["a.jpg"; "a.jpg.su.json"; "b.png"; "b.png"])
             ["/"; "t"] false in
  count_occ path_eq_dec (map media_path (pairs r) ++ orphan_media r)
    ["/"; "t"; "b.png"] = 1.
Proof.
  apply (media_file_filed_exactly_once
           (flat_dir ["a.jpg"; "a.jpg.su.json"; "b.png"; "b.png"])
           ["/"; "t"] false ["/"; "t"; "b.png"]).
  - reflexivity.
  - reflexivity.
  - apply path_in_true. vm_compute. reflexivity.
  - vm_compute. reflexivity.
Defined.

(** X10. The skipped files of a scan are exactly the regular files of
    the listing that are named like an album file, in listing order;
    none for a root that is missing or no directory. *)
Theorem album_files_are_skipped
  (fs : FileSystem) (directory : Path) (recursive : bool) :
  skipped_jsons (scan_directory fs directory recursive)
  = if fs_exists fs directory && fs_is_dir fs directory
    then filter (fun e => fs_is_file fs e && str_in (name e) SKIP_FILES)
           (listing fs directory recursive)
    else [].
Proof.
  unfold scan_directory.
  destruct (fs_exists fs directory); cbn [negb andb]; [|reflexivity].
  destruct (fs_is_dir fs directory); cbn [negb]; [|reflexivity].
  cbn [skipped_jsons]. fold (listing fs directory recursive).
  now destruct (first_loop_spec fs (listing fs directory recursive)) as (Hs & _).
Qed.

(** ** Statistics of a scan *)

Lemma count_incr_get (counts : list (string * nat)) (key k : string) :
  counts_get (count_incr counts key) k
  = if String.eqb key k then S (counts_get counts k) else counts_get counts k.
Proof.
  induction counts as [|[k0 n] counts IH]; simpl.
  - destruct (String.eqb key k); reflexivity.
  - destruct (String.eqb k0 key) eqn:E0; simpl.
    + apply String.eqb_eq in E0. subst k0.
      destruct (String.eqb key k); reflexivity.
    + rewrite IH. destruct (String.eqb k0 k) eqn:E1; [|reflexivity].
      apply String.eqb_eq in E1. subst k0.
      rewrite String.eqb_sym in E0. now rewrite E0.
Qed.

Lemma count_incr_sum (counts : list (string * nat)) (key : string) :
  list_sum (map snd (count_incr counts key)) = S (list_sum (map snd counts)).
Proof.
  induction counts as [|[k0 n] counts IH]; simpl; [reflexivity|].
  destruct (String.eqb k0 key); simpl; [reflexivity|].
  rewrite IH. lia.
Qed.

Lemma count_incr_keys (counts : list (string * nat)) (key : string) :
  NoDup (map fst counts) -> NoDup (map fst (count_incr counts key)).
Proof.
  induction counts as [|[k0 n] counts IH]; simpl; intros H.
  - repeat constructor. intros [].
  - inversion H as [|? ? Hn Hc]; subst.
    destruct (String.eqb k0 key) eqn:E; simpl; [now constructor|].
    constructor; [|now apply IH].
    intros Hin. apply Hn. clear - Hin E.
    induction counts as [|[k1 n1] counts IH]; simpl in *.
    + destruct Hin as [<-|[]]. rewrite String.eqb_refl in E. discriminate.
    + destruct (String.eqb k1 key); simpl in Hin; [exact Hin|].
      destruct Hin as [H|H]; auto.
Qed.

Lemma tally_spec {A : Type} (key_of : A -> string) (items : list A)
  (counts : list (string * nat)) :
  let final := fold_left (fun cs x => count_incr cs (key_of x)) items counts in
  (forall k, counts_get final k
             = counts_get counts k
               + count_occ string_dec (map key_of items) k) /\
  list_sum (map snd final) = list_sum (map snd counts) + List.length items /\
  (NoDup (map fst counts) -> NoDup (map fst final)).
Proof.
  cbv zeta. revert counts; induction items as [|x items IH]; intros counts; simpl.
  - repeat split; auto.
  - destruct (IH (count_incr counts (key_of x))) as (G & Su & N).
    repeat split.
    + intros k. rewrite G, count_incr_get.
      destruct (string_dec (key_of x) k) as [->|Ne].
      * rewrite String.eqb_refl. lia.
      * apply String.eqb_neq in Ne. rewrite Ne. reflexivity.
    + rewrite Su, count_incr_sum. lia.
    + intros H. apply N. now apply count_incr_keys.
Qed.

(** X11. In the statistics of a scan the count stored under an
    extension (a directory name) is the number of pairs with that
    extension (directory name), no key is listed twice, and each
    breakdown adds up to the number of pairs. *)
Theorem directory_stats_count_pairs (result : ScanResult) :
  let st := get_directory_stats result in
  (forall ext, counts_get (stat_extensions st) ext
               = count_occ string_dec (map pair_extension (pairs result)) ext) /\
  (forall d, counts_get (stat_directories st) d
             = count_occ string_dec (map pair_directory (pairs result)) d) /\
  list_sum (map snd (stat_extensions st)) = stat_total_pairs st /\
  list_sum (map snd (stat_directories st)) = stat_total_pairs st /\
  NoDup (map fst (stat_extensions st)) /\
  NoDup (map fst (stat_directories st)).
Proof.
  cbv zeta. unfold get_directory_stats.
  cbn [stat_extensions stat_directories stat_total_pairs].
  destruct (tally_spec pair_extension (pairs result) []) as (G1 & S1 & N1).
  destruct (tally_spec pair_directory (pairs result) []) as (G2 & S2 & N2).
  repeat split; auto.
  - apply N1. constructor.
  - apply N2. constructor.
Qed.

(** ** The sidecar parser: caption and times *)

Lemma lstrip_head (s : string) :
  match lstrip s with
  | EmptyString => True
  | String c _ => is_space c = false
  end.
Proof.
  induction s as [|c s IH]; simpl; [exact I|].
  destruct (is_space c) eqn:E; [exact IH | exact E].
Qed.

Lemma rstrip_head (c : ascii) (s : string) :
  is_space c = false -> exists t, rstrip (String c s) = String c t.
Proof.
  intros E. simpl. destruct (rstrip s); [rewrite E|]; eauto.
Qed.

Lemma rstrip_idem (s : string) : rstrip (rstrip s) = rstrip s.
Proof.
  induction s as [|c s IH]; simpl; [reflexivity|].
  destruct (rstrip s) as [|d t] eqn:R.
  - destruct (is_space c) eqn:E; simpl; [reflexivity | now rewrite E].
  - change (rstrip (String c (String d t))) with
      (match rstrip (String d t) with
       | EmptyString => if is_space c then EmptyString else String c EmptyString
       | u => String c u
       end).
    now rewrite IH.
Qed.

Lemma lstrip_fixed (s : string) :
  match s with
  | EmptyString => True
  | String c _ => is_space c = false
  end -> lstrip s = s.
Proof. destruct s as [|c s]; simpl; [reflexivity | now intros ->]. Qed.

Lemma strip_idem (s : string) : strip (strip s) = strip s.
Proof.
  unfold strip.
  assert (L : lstrip (rstrip (lstrip s)) = rstrip (lstrip s)).
  { apply lstrip_fixed. pose proof (lstrip_head s) as H.
    destruct (lstrip s) as [|c t]; [exact I|].
    destruct (rstrip_head c t H) as (u & ->). exact H. }
  rewrite L. apply rstrip_idem.
Qed.

(** What the parser read for the fields besides the location. *)
Lemma parse_google_json_fields (B : PyBuiltins) (data : pyval)
  (md : GoogleMetadata) :
  parse_google_json B (Some data) = Ok (Some md) ->
  exists desc photo_time creation,
    py_get data "title" PNone = Ok (title md) /\
    py_get data "description" (PStr "") = Ok desc /\
    (if truthy desc then
       exists s, desc = PStr s /\
                 description md = if String.eqb (strip s) "" then None
                                  else Some (strip s)
     else description md = None) /\
    py_get data "photoTakenTime" (PDict []) = Ok photo_time /\
    parse_timestamp B photo_time = Ok (photo_taken_time md) /\
    py_get data "creationTime" (PDict []) = Ok creation /\
    parse_timestamp B creation = Ok (creation_time md).
Proof.
  unfold parse_google_json. intros H.
  destruct (py_get data "title" PNone) as [t|] eqn:Et; cbn [bind] in H;
    [|discriminate].
  destruct (py_get data "description" (PStr "")) as [desc|] eqn:Ed;
    cbn [bind] in H; [|discriminate].
  match type of H with
  | bind ?r _ = _ => destruct r as [dv|] eqn:Edv; cbn [bind] in H;
                     [|discriminate]
  end.
  destruct (py_get data "photoTakenTime" (PDict [])) as [pt|] eqn:Ep;
    cbn [bind] in H; [|discriminate].
  destruct (parse_timestamp B pt) as [ptv|] eqn:Epv; cbn [bind] in H;
    [|discriminate].
  destruct (py_get data "creationTime" (PDict [])) as [ct|] eqn:Ec;
    cbn [bind] in H; [|discriminate].
  destruct (parse_timestamp B ct) as [ctv|] eqn:Ecv; cbn [bind] in H;
    [|discriminate].
  bind_inv H. injection H as <-.
  cbn [title description photo_taken_time creation_time].
  exists desc, pt, ct. repeat (split; [reflexivity || assumption|]).
  split; [|auto].
  destruct (truthy desc).
  - destruct desc; try discriminate Edv. injection Edv as <-. eauto.
  - now injection Edv as <-.
Qed.



(** X12. A parsed caption is trimmed and never empty: it is the strip of
    the sidecar's description, stripping it again changes nothing, and a
    description that is absent, empty or only whitespace gives no
    caption. *)
Theorem description_is_trimmed
  (B : PyBuiltins) (data : pyval) (md : GoogleMetadata)
  (Hparse : parse_google_json B (Some data) = Ok (Some md)) :
  match description md with
  | Some d =>
      d <> "" /\ strip d = d /\
      exists s, py_get data "description" (PStr "") = Ok (PStr s) /\
                d = strip s
  | None =>
      forall s, py_get data "description" (PStr "") = Ok (PStr s) ->
                strip s = ""
  end.
Proof.
  destruct (parse_google_json_fields _ _ _ Hparse)
    as (desc & _ & _ & _ & Gd & D & _).
  destruct (truthy desc) eqn:T.
  - destruct D as (s & -> & ->).
    destruct (String.eqb (strip s) "") eqn:E.
    + intros s' G. rewrite Gd in G. injection G as <-.
      now apply String.eqb_eq.
    + apply String.eqb_neq in E. repeat split; auto using strip_idem.
      exists s. auto.
  - rewrite D. intros s G. rewrite Gd in G. injection G as ->.
    simpl in T. destruct s; [reflexivity | discriminate T].
Qed.

Lemma description_is_trimmed_witness :
  exists md,
    parse_google_json plain_builtins (Some sidecar_captioned) = Ok (Some md) /\
    "Sunrise over the bay" <> "" /\
    strip "Sunrise over the bay" = "Sunrise over the bay" /\
    exists s, py_get sidecar_captioned "description" (PStr "") = Ok (PStr s) /\
              "Sunrise over the bay" = strip s.
Proof.
  eexists. split; [vm_compute; reflexivity|].
  exact (description_is_trimmed plain_builtins sidecar_captioned _
           ltac:(vm_compute; reflexivity)).
Defined.



(** X14. For a parsed sidecar whose coordinates are not JSON text,
    [has_gps] says exactly that the latitude is present, and latitude and
    longitude are present together. *)
Theorem has_gps_iff_latitude
  (B : PyBuiltins) (data : pyval) (md : GoogleMetadata)
  (Hparse : parse_google_json B (Some data) = Ok (Some md))
  (Hlat : forall s, geo_field data "latitude" <> Some (PStr s))
  (Hlon : forall s, geo_field data "longitude" <> Some (PStr s)) :
  (has_gps md = true <-> latitude md <> None) /\
  (latitude md = None <-> longitude md = None).
Proof.
  destruct (parse_google_json_inv _ _ _ Hparse)
    as (lat & lon & alt & Glat & Glon & _ & Hgps & _).
  apply parse_gps_cases in Hgps.
  destruct Hgps as [(Ela & Elo & _)|(x & y & Ela & Elo & _ & _ & Z & Fx & Fy & _)];
    unfold has_gps; rewrite Ela, Elo.
  - repeat split; try discriminate; try reflexivity; intros H; now contradiction H.
  - assert (G : negb (feqb x fzero) || negb (feqb y fzero) = true).
    { apply orb_prop in Z as [Z|Z].
      - rewrite (py_float_nonzero B lat x); auto.
        intros s ->. exact (Hlat s Glat).
      - rewrite (py_float_nonzero B lon y), orb_true_r; auto.
        intros s ->. exact (Hlon s Glon). }
    rewrite G. repeat split; try discriminate; auto.
Qed.

Lemma has_gps_iff_latitude_witness :
  exists md,
    parse_google_json example_builtins (Some sidecar_located) = Ok (Some md) /\
    (has_gps md = true <-> latitude md <> None).
Proof.
  eexists. split; [vm_compute; reflexivity|].
  refine (proj1 (has_gps_iff_latitude example_builtins sidecar_located _ _ _ _)).
  - vm_compute; reflexivity.
  - intros s H; vm_compute in H; discriminate H.
  - intros s H; vm_compute in H; discriminate H.
Defined.

(** ** Writing and verifying one file *)


Lemma verify_date_issues (B : PyBuiltins) (actual : tags)
  (expected : GoogleMetadata) :
  fst (verify_date B actual expected) = true ->
  snd (verify_date B actual expected) = [].
Proof.
  unfold verify_date. destruct (photo_taken_time expected); [|reflexivity].
  destruct (truthy _); [|discriminate].
  destruct (String.eqb _ _); [reflexivity | discriminate].
Qed.

Lemma verify_gps_issues (B : PyBuiltins) (actual : tags)
  (expected : GoogleMetadata) (issues : list string) :
  verify_gps B actual expected = Ok (true, issues) -> issues = [].
Proof.
  unfold verify_gps. destruct (has_gps expected); [|congruence].
  destruct (latitude expected); [|congruence].
  destruct (longitude expected); [|congruence].
  destruct (is_not_none _ && is_not_none _); [|discriminate].
  destruct (bind _ _) as [[alat alon]|[]]; try discriminate.
  destruct (fltb _ _ && fltb _ _); [congruence | discriminate].
Qed.

Lemma verify_description_issues (actual : tags) (expected : GoogleMetadata) :
  fst (verify_description actual expected) = true ->
  snd (verify_description actual expected) = [].
Proof.
  unfold verify_description. destruct (description expected); [|reflexivity].
  destruct (String.eqb _ ""); [reflexivity|]. simpl. now intros ->.
Qed.

(** X16. A verification that succeeds says ["All metadata verified"]:
    whenever an issue was noted, the verification has failed. *)
Theorem verified_message
  (B : PyBuiltins) (actual : option tags) (expected : GoogleMetadata)
  (r : VerificationResult)
  (Hverify : verify_metadata B actual expected = Ok r)
  (Hsuccess : success r = true) :
  message r = "All metadata verified" /\
  date_match r = true /\ gps_match r = true /\ description_match r = true /\
  actual <> None.
Proof.
  unfold verify_metadata in Hverify. destruct actual as [a|].
  - destruct (verify_gps B a expected) as [[g gi]|] eqn:G; cbn [bind] in Hverify;
      [|discriminate].
    injection Hverify as <-. cbn [success] in Hsuccess. cbn [fst snd] in *.
    apply andb_prop in Hsuccess as [Hs Hc]. apply andb_prop in Hs as [Hd Hg].
    subst g. cbn [message date_match gps_match description_match fst snd].
    rewrite (verify_date_issues _ _ _ Hd), (verify_gps_issues _ _ _ _ G),
      (verify_description_issues _ _ Hc).
    repeat split; auto. discriminate.
  - injection Hverify as <-. discriminate Hsuccess.
Qed.

Lemma verified_message_witness :
  exists r,
    verify_metadata example_builtins
      (Some (read_back (float_lit 3777485 5) (float_lit 12241945 5)))
      expected_location = Ok r /\
    message r = "All metadata verified".
Proof.
  eexists. split; [vm_compute; reflexivity|].
  refine (proj1 (verified_message example_builtins
                  (Some (read_back (float_lit 3777485 5) (float_lit 12241945 5)))
                  expected_location _ _ _)).
  - vm_compute; reflexivity.
  - reflexivity.
Defined.

(** X17. A record that expects nothing (no capture time, no location, no
    caption) verifies against any file that can be read, whatever its
    tags. *)
Theorem nothing_expected_verifies
  (B : PyBuiltins) (actual : tags) (expected : GoogleMetadata)
  (Hdate : photo_taken_time expected = None)
  (Hgps : has_gps expected = false)
  (Hdesc : description expected = None \/ description expected = Some "") :
  verify_metadata B (Some actual) expected
  = Ok {| success := true; date_match := true; gps_match := true;
          description_match := true; message := "All metadata verified" |}.
Proof.
  unfold verify_metadata, verify_date, verify_gps, verify_description.
  rewrite Hdate, Hgps. destruct Hdesc as [-> | ->]; reflexivity.
Qed.

Lemma nothing_expected_verifies_witness :
  verify_metadata example_builtins (Some dated_tags) expected_nothing
  = Ok {| success := true; date_match := true; gps_match := true;
          description_match := true; message := "All metadata verified" |}.
Proof.
  apply (nothing_expected_verifies example_builtins dated_tags expected_nothing);
    auto.
Defined.

(** X18. A caption that is expected but missing from the file (none of
    the four caption tags holds a non-empty value) fails the
    verification without noting an issue: with date and location in
    order the result has [success = False] and still the message
    ["All metadata verified"]. *)
Theorem missing_caption_fails_silently
  (B : PyBuiltins) (actual : tags) (expected : GoogleMetadata) (d : string)
  (Hdate : photo_taken_time expected = None)
  (Hgps : has_gps expected = false)
  (Hdesc : description expected = Some d)
  (Hd : d <> "")
  (Hmissing :
     truthy (py_or (py_or (py_or (tag actual "EXIF:ImageDescription")
                                 (tag actual "ImageDescription"))
                          (tag actual "XMP:Description"))
                   (tag actual "IPTC:Caption-Abstract")) = false) :
  verify_metadata B (Some actual) expected
  = Ok {| success := false; date_match := true; gps_match := true;
          description_match := false; message := "All metadata verified" |}.
Proof.
  unfold verify_metadata, verify_date, verify_gps, verify_description.
  rewrite Hdate, Hgps, Hdesc.
  apply String.eqb_neq in Hd. rewrite Hd. cbn [bind fst snd app andb].
  rewrite Hmissing.
  assert (E : py_eq_str
                (py_or (py_or (py_or (tag actual "EXIF:ImageDescription")
                                     (tag actual "ImageDescription"))
                              (tag actual "XMP:Description"))
                       (tag actual "IPTC:Caption-Abstract")) d = false).
  { destruct (py_or _ _) as [| | | |s| |]; try reflexivity.
    simpl in Hmissing. simpl.
    destruct (String.eqb s "") eqn:Es; [|discriminate Hmissing].
    apply String.eqb_eq in Es. subst s. now rewrite String.eqb_sym. }
  rewrite E. reflexivity.
Qed.

Lemma missing_caption_fails_silently_witness :
  verify_metadata example_builtins (Some dated_tags) expected_caption_only
  = Ok {| success := false; date_match := true; gps_match := true;
          description_match := false; message := "All metadata verified" |}.
Proof.
  apply (missing_caption_fails_silently example_builtins dated_tags
           expected_caption_only "Sunrise over the bay");
    try reflexivity. discriminate.
Defined.

(** X19. The date check compares the first 19 characters of the value
    read back with the expected text: whatever follows them (a zone, a
    fraction) is ignored, so a value that starts with the expected 19
    characters matches. *)
Theorem date_match_first_19
  (B : PyBuiltins) (actual : tags) (expected : GoogleMetadata)
  (dt : Z) (text : string) (r : VerificationResult)
  (Hdate : photo_taken_time expected = Some dt)
  (Hread : py_or (tag actual "EXIF:DateTimeOriginal")
                 (tag actual "DateTimeOriginal") = PStr text)
  (Htext : text <> "")
  (Hverify : verify_metadata B (Some actual) expected = Ok r) :
  date_match r = String.eqb (take 19 text) (strftime B dt) /\
  (String.length (strftime B dt) = 19 ->
   (exists rest, text = (strftime B dt ++ rest)%string) ->
   date_match r = true).
Proof.
  assert (D : date_match r = String.eqb (take 19 text) (strftime B dt)).
  { unfold verify_metadata in Hverify. bind_inv Hverify.
    injection Hverify as <-. cbn [date_match].
    unfold verify_date. rewrite Hdate, Hread. cbn [truthy py_str].
    apply String.eqb_neq in Htext. rewrite Htext. cbn [negb].
    destruct (String.eqb (take 19 text) (strftime B dt)); reflexivity. }
  split; [exact D|].
  intros L (rest & ->). rewrite D, <- L, take_append. apply String.eqb_refl.
Qed.

Lemma date_match_first_19_witness :
  exists r,
    verify_metadata plain_builtins (Some dated_tags) expected_captioned = Ok r /\
    date_match r = true.
Proof.
  eexists. split; [vm_compute; reflexivity|].
  refine (proj2 (date_match_first_19 plain_builtins dated_tags
                   expected_captioned 1609459200%Z
                   "2021:01:01 00:00:00+00:00" _ _ _ _ _) _ _).
  - reflexivity.
  - reflexivity.
  - discriminate.
  - vm_compute; reflexivity.
  - reflexivity.
  - exists "+00:00". reflexivity.
Defined.

Lemma write_missing_file {W : Type} (E : Engine W) (B : PyBuiltins)
  (s : W) (path : Path) (metadata : GoogleMetadata) :
  path_exists E s path = false ->
  write_metadata_to_file E B s path metadata
  = (s, (false, ("File not found: " ++ str_of_path B path)%string)).
Proof. unfold write_metadata_to_file. now intros ->. Qed.


Lemma verify_phase_inv {W : Type} (E : Engine W) (B : PyBuiltins) (s : W)
  (media : Path) (video_path : option Path) (metadata : GoogleMetadata)
  (written : string) (verify ok : bool) (msg : string)
  (ver : option VerificationResult) :
  verify_phase E B s media video_path metadata written verify
  = Ok (ok, msg, ver) ->
  match ver with
  | Some v =>
      verify = true /\ ok = success v /\
      (ok = true -> msg = written) /\
      (ok = false -> msg = ("Verification failed: " ++ message v)%string) /\
      exists image,
        verify_metadata B (get_metadata E s media) metadata = Ok image /\
        match video_path with
        | Some vp =>
            exists video,
              verify_metadata B (get_metadata E s vp) metadata = Ok video /\
              v = combine_linked image video
        | None => v = image
        end
  | None => verify = false /\ ok = true /\ msg = written
  end.
Proof.
  unfold verify_phase. destruct verify.
  - destruct (verify_metadata B (get_metadata E s media) metadata)
      as [image|e] eqn:V; cbn [bind]; [|discriminate].
    destruct video_path as [vp|].
    + destruct (verify_metadata B (get_metadata E s vp) metadata)
        as [video|e] eqn:V2; cbn [bind]; [|discriminate].
      destruct (success (combine_linked image video)) eqn:Sv; cbn [negb];
        intros H; injection H as <- <- <-; rewrite Sv;
        (split; [reflexivity|]); (split; [reflexivity|]);
        (split; [try reflexivity; discriminate|]);
        (split; [try reflexivity; discriminate|]);
        exists image; (split; [reflexivity|]);
        exists video; split; reflexivity.
    + cbn [bind]. destruct (success image) eqn:Sv; cbn [negb];
        intros H; injection H as <- <- <-; rewrite Sv;
        (split; [reflexivity|]); (split; [reflexivity|]);
        (split; [try reflexivity; discriminate|]);
        (split; [try reflexivity; discriminate|]);
        exists image; split; reflexivity.
  - intros H; injection H as <- <- <-. auto.
Qed.



(** X21. When [process_file] hands back a verification result, its
    first component is that result's [success]; a failure carries the
    message ["Verification failed: "] followed by the result's message,
    and a failed verification is never reported as a success. *)
Theorem process_file_verification
  {W : Type} (E : Engine W) (B : PyBuiltins) (et_open : bool) (s s' : W)
  (media json : Path) (verify : bool) (video_path : option Path)
  (ok : bool) (msg : string) (v : VerificationResult)
  (Hrun : process_file E B et_open s media json verify video_path
          = (s', Ok (ok, msg, Some v))) :
  verify = true /\ ok = success v /\
  (ok = false -> msg = ("Verification failed: " ++ message v)%string).
Proof.
  unfold process_file in Hrun.
  destruct et_open; cbn [negb] in Hrun; [|discriminate Hrun].
  destruct (parse_google_json B (load_json E s json)) as [[metadata|]|e];
    [|discriminate Hrun|discriminate Hrun].
  destruct (write_metadata_to_file E B s media metadata)
    as [s1 [wok written]].
  destruct wok; cbn [negb] in Hrun; [|discriminate Hrun].
  destruct video_path as [vp|].
  - destruct (write_metadata_to_file E B s1 vp metadata) as [s2 [vok vmsg]].
    destruct vok; cbn [negb] in Hrun; [|discriminate Hrun].
    injection Hrun as <- Hv. apply verify_phase_inv in Hv.
    destruct Hv as (-> & Hs & _ & Hm & _). auto.
  - injection Hrun as <- Hv. apply verify_phase_inv in Hv.
    destruct Hv as (-> & Hs & _ & Hm & _). auto.
Qed.

Lemma process_file_verification_witness :
  exists msg v,
    process_file untagged_photo example_builtins true tt a_jpg a_json true None
    = (tt, Ok (false, msg, Some v)) /\
    success v = false /\
    msg = ("Verification failed: " ++ message v)%string.
Proof.
  do 2 eexists. split; [vm_compute; reflexivity|].
  destruct (process_file_verification untagged_photo example_builtins true
              tt tt a_jpg a_json true None false _ _
              ltac:(vm_compute; reflexivity))
    as (_ & Hs & Hm).
  split; [now rewrite <- Hs | now apply Hm].
Defined.

(** X22. When the media file does not exist, [process_file] writes
    nothing, not even to the video of a linked pair, and does not
    report a success. *)
Theorem process_file_missing_media
  {W : Type} (E : Engine W) (B : PyBuiltins) (et_open : bool) (s : W)
  (media json : Path) (verify : bool) (video_path : option Path)
  (Hmissing : path_exists E s media = false) :
  fst (process_file E B et_open s media json verify video_path) = s /\
  (forall metadata,
     parse_google_json B (load_json E s json) = Ok (Some metadata) ->
     et_open = true ->
     snd (process_file E B et_open s media json verify video_path)
     = Ok (false, ("File not found: " ++ str_of_path B media)%string, None)) /\
  forall msg ver,
    snd (process_file E B et_open s media json verify video_path)
    <> Ok (true, msg, ver).
Proof.
  unfold process_file.
  destruct et_open; cbn [negb fst snd].
  - destruct (parse_google_json B (load_json E s json)) as [[metadata|]|e];
      cbn [fst snd].
    + rewrite (write_missing_file E B s media metadata Hmissing).
      cbn [negb fst snd]. split; [reflexivity|]. split.
      * intros metadata' H _. injection H as <-. reflexivity.
      * intros msg ver; discriminate.
    + split; [reflexivity|]. split; [discriminate|]. intros msg ver; discriminate.
    + split; [reflexivity|]. split; [discriminate|]. intros msg ver; discriminate.
  - split; [reflexivity|]. split; [discriminate|]. intros msg ver; discriminate.
Qed.

Lemma process_file_missing_media_witness :
  path_exists untagged_photo tt ["/"; "t"; "b.jpg"] = false /\
  process_file untagged_photo example_builtins true tt ["/"; "t"; "b.jpg"]
    a_json true (Some a_mp4)
  = (tt, Ok (false, "File not found: ", None)).
Proof.
  split; [reflexivity|].
  destruct (process_file_missing_media untagged_photo example_builtins true tt
              ["/"; "t"; "b.jpg"] a_json true (Some a_mp4)
              ltac:(reflexivity))
    as (Hw & Hm & _).
  rewrite (surjective_pairing (process_file _ _ _ _ _ _ _ _)).
  rewrite Hw. erewrite Hm; [reflexivity | vm_compute; reflexivity | reflexivity].
Defined.

(** ** The commands *)






Section CleanupTargets.
Variables (fs : FileSystem) (l : list Path).

Let c := fold_left (classify fs) l scan_init.
Let m := fold_left (match_item (media_files c)) (json_files c) match_init.

Lemma pair_json_is_sidecar (x : Path) :
  In x (map json_path (m_pairs m)) -> is_metadata_json (name x) = true.
Proof.
  destruct (first_loop_spec fs l) as (_ & _ & _ & _ & Hj).
  intros H. unfold m, c in H. apply in_pairs_json in H as (k & J & _).
  apply Hj, last_writer_in in J as [_ T].
  now apply sidecar_target_Some in T as (_ & Js & _).
Qed.

Lemma pair_json_not_orphan (x : Path) :
  In x (map json_path (m_pairs m)) -> ~ In x (m_orphan_jsons m).
Proof.
  intros H O. unfold m, c in H, O.
  apply in_pairs_json in H as (k & J & I).
  apply in_orphan_jsons in O as (k' & J' & N).
  rewrite (json_files_value_key _ _ _ _ _ J J') in I. contradiction.
Qed.

Lemma media_entry_not_sidecar (x : Path) :
  is_media_entry fs x = true -> is_metadata_json (name x) = false.
Proof.
  unfold is_media_entry. intros H.
  apply andb_prop in H as [H _]. apply andb_prop in H as [_ H].
  now destruct (is_metadata_json (name x)).
Qed.

Lemma pair_json_not_media (x : Path) :
  In x (map json_path (m_pairs m)) ->
  ~ In x (map media_path (m_pairs m)) /\
  ~ In x (fold_left (orphan_step (matched_media m)) (media_files c) []).
Proof.
  destruct (first_loop_spec fs l) as (_ & _ & Hmi & _ & _).
  intros H. apply pair_json_is_sidecar in H. split; intros M.
  - apply in_map_iff in M as (p & <- & Hp). apply in_m_pairs in Hp as [_ Hp].
    apply Hmi in Hp as [_ Hp]. apply media_entry_not_sidecar in Hp. congruence.
  - apply orphan_media_shape in M as (_ & Hp & _).
    apply media_entry_not_sidecar in Hp. congruence.
Qed.
End CleanupTargets.

Lemma pair_sidecar_apart
  (fs : FileSystem) (directory : Path) (recursive : bool) (x : Path) :
  let r := scan_directory fs directory recursive in
  In x (map json_path (pairs r)) ->
  is_metadata_json (name x) = true /\
  ~ In x (orphan_jsons r) /\
  ~ In x (map media_path (pairs r)) /\ ~ In x (orphan_media r).
Proof.
  cbv zeta. unfold scan_directory.
  destruct (fs_exists fs directory); cbn [negb]; [|intros []].
  destruct (fs_is_dir fs directory); cbn [negb]; [|intros []].
  cbn [pairs orphan_jsons orphan_media]. intros H.
  split; [exact (pair_json_is_sidecar _ _ _ H)|].
  split; [exact (pair_json_not_orphan _ _ _ H)|].
  exact (pair_json_not_media _ _ _ H).
Qed.

Lemma cleanup_unlinked_pairs
  {W : Type} (E : Engine W) (B : PyBuiltins) (C : Console) (args : Args) (s : W)
  (x : Path) :
  In x (unlinked (fst (cmd_cleanup E B C args s))) ->
  In x (map json_path
          (pairs (scan_directory (file_system E s) (arg_directory args)
                    (arg_recursive args)))).
Proof.
  unfold cmd_cleanup.
  destruct (negb (path_exists E s (arg_directory args))); [intros []|].
  destruct (arg_no_verify args); cbn [negb andb].
  - destruct (pairs _) as [|p0 ps] eqn:P; [intros []|].
    destruct (negb (arg_yes args) && _); [intros []|].
    destruct (for_each _ _ _) as [st [e|]] eqn:F; cbn [fst]; intros Hx;
      match type of F with
      | for_each _ _ ?init = _ =>
          pose proof (cleanup_unverified_loop_unlinked E B (p0 :: ps) init x)
            as U
      end; rewrite F in U; cbn [fst] in U.
    + destruct (U Hx) as [[]|H]; exact H.
    + assert (Hx' : In x (unlinked (cl_run st))).
      { destruct (orphan_jsons _); exact Hx. }
      destruct (U Hx') as [[]|H]; exact H.
  - destruct (negb (fst (exiftool_available C))); [intros []|].
    destruct (pairs _) as [|p0 ps] eqn:P; [intros []|].
    destruct (negb (arg_yes args) && _); [intros []|].
    destruct (for_each _ _ _) as [st [e|]] eqn:F; cbn [fst]; intros Hx;
      match type of F with
      | for_each _ _ ?init = _ =>
          pose proof (cleanup_verified_loop_keeps E B (p0 :: ps) init) as K
      end; cbv zeta in K; rewrite F in K; cbn [fst] in K;
      destruct K as (K & _).
    + rewrite K in Hx. destruct Hx.
    + assert (Hx' : In x (unlinked (cl_run st))).
      { destruct (orphan_jsons _); exact Hx. }
      rewrite K in Hx'. destruct Hx'.
Qed.

(** X24. Whatever the mode and the outcome, every path that [cleanup]
    deletes is the sidecar of a pair of the scan: it is named like a
    sidecar and is neither an orphan sidecar nor a media file of the
    scan. *)
Theorem cleanup_deletes_pair_sidecars_only
  {W : Type} (E : Engine W) (B : PyBuiltins) (C : Console) (args : Args) (s : W) :
  let result := scan_directory (file_system E s) (arg_directory args)
                  (arg_recursive args) in
  Forall (fun x =>
            In x (map json_path (pairs result)) /\
            is_metadata_json (name x) = true /\
            ~ In x (orphan_jsons result) /\
            ~ In x (map media_path (pairs result)) /\
            ~ In x (orphan_media result))
         (unlinked (fst (cmd_cleanup E B C args s))) /\
  Forall (fun x =>
            In x (map json_path (pairs result)) /\
            is_metadata_json (name x) = true /\
            ~ In x (orphan_jsons result) /\
            ~ In x (map media_path (pairs result)) /\
            ~ In x (orphan_media result))
         (unlinked (fst (main E B C cleanup args s))).
Proof.
  cbv zeta.
  assert (A : Forall (fun x =>
            In x (map json_path (pairs (scan_directory (file_system E s)
                    (arg_directory args) (arg_recursive args)))) /\
            is_metadata_json (name x) = true /\
            ~ In x (orphan_jsons (scan_directory (file_system E s)
                    (arg_directory args) (arg_recursive args))) /\
            ~ In x (map media_path (pairs (scan_directory (file_system E s)
                    (arg_directory args) (arg_recursive args)))) /\
            ~ In x (orphan_media (scan_directory (file_system E s)
                    (arg_directory args) (arg_recursive args))))
         (unlinked (fst (cmd_cleanup E B C args s)))).
  { apply Forall_forall. intros x Hx.
    apply cleanup_unlinked_pairs in Hx. split; [exact Hx|].
    exact (pair_sidecar_apart _ _ _ x Hx). }
  split; [exact A|].
  unfold main. destruct (cmd_cleanup E B C args s) as [r [code|e]];
    cbn [fst] in *; exact A.
Qed.

Lemma attach_step_unlinked {W : Type} (E : Engine W) (B : PyBuiltins)
  (args : Args) (st : AttachState W) (p : MediaFilePair) :
  unlinked (at_run (fst (attach_step E B args st p))) = unlinked (at_run st).
Proof.
  unfold attach_step. destruct (pair_getattr p "video_path") as [vp|e];
    [|reflexivity].
  destruct (process_file _ _ _ _ _ _ _ _) as [s' [[[ok msg] ver]|e]];
    reflexivity.
Qed.

Lemma attach_loop_unlinked {W : Type} (E : Engine W) (B : PyBuiltins)
  (args : Args) (l : list MediaFilePair) (st : AttachState W) :
  unlinked (at_run (fst (for_each (attach_step E B args) l st)))
  = unlinked (at_run st).
Proof.
  revert st. induction l as [|p l IH]; intros st; [reflexivity|].
  cbn [for_each]. pose proof (attach_step_unlinked E B args st p) as K.
  destruct (attach_step E B args st p) as [st1 [e|]]; cbn [fst] in *;
    [exact K|]. now rewrite IH.
Qed.

Lemma cmd_attach_unlinked {W : Type} (E : Engine W) (B : PyBuiltins)
  (C : Console) (args : Args) (s : W) :
  unlinked (fst (cmd_attach E B C args s)) = [].
Proof.
  unfold cmd_attach.
  destruct (negb (path_exists E s (arg_directory args))); [reflexivity|].
  destruct (negb (fst (exiftool_available C))); [reflexivity|].
  destruct (pairs _) as [|p0 ps]; [reflexivity|].
  destruct (arg_dry_run args); [reflexivity|].
  destruct (negb (arg_yes args) && _); [reflexivity|].
  match goal with
  | |- context [for_each _ _ ?init] =>
      pose proof (attach_loop_unlinked E B args (p0 :: ps) init) as L
  end.
  destruct (for_each _ _ _) as [st [e|]]; cbn [fst] in *; exact L.
Qed.

(** X25. [attach] and [stats] never delete a file, whatever they meet,
    also when run through [main]; [stats] leaves the disk as it found
    it. *)
Theorem attach_and_stats_never_delete
  {W : Type} (E : Engine W) (B : PyBuiltins) (C : Console) (args : Args) (s : W) :
  unlinked (fst (cmd_attach E B C args s)) = [] /\
  unlinked (fst (main E B C attach args s)) = [] /\
  unlinked (fst (main E B C stats args s)) = [] /\
  world (fst (main E B C stats args s)) = s.
Proof.
  pose proof (cmd_attach_unlinked E B C args s) as A.
  split; [exact A|]. split.
  - unfold main. destruct (cmd_attach E B C args s) as [r [code|e]];
      cbn [fst] in *; exact A.
  - unfold main, cmd_stats.
    destruct (negb (path_exists E s (arg_directory args))); split; reflexivity.
Qed.

(** X26. A dry run of [attach] changes nothing on disk and exits with 0,
    or with 1 when the directory or the engine is missing. *)
Theorem attach_dry_run_changes_nothing
  {W : Type} (E : Engine W) (B : PyBuiltins) (C : Console) (args : Args) (s : W)
  (Hdry : arg_dry_run args = true) :
  world (fst (cmd_attach E B C args s)) = s /\
  snd (cmd_attach E B C args s)
  = Ok (if path_exists E s (arg_directory args) && fst (exiftool_available C)
        then 0 else 1).
Proof.
  unfold cmd_attach.
  destruct (path_exists E s (arg_directory args)); cbn [negb andb];
    [|split; reflexivity].
  destruct (fst (exiftool_available C)); cbn [negb]; [|split; reflexivity].
  destruct (pairs _) as [|p0 ps]; [split; reflexivity|].
  rewrite Hdry. split; reflexivity.
Qed.

Lemma attach_dry_run_changes_nothing_witness :
  world (fst (cmd_attach untagged_photo example_builtins example_console
                example_args_dry_run tt)) = tt /\
  snd (cmd_attach untagged_photo example_builtins example_console
         example_args_dry_run tt) = Ok 0.
Proof.
  exact (attach_dry_run_changes_nothing untagged_photo example_builtins
           example_console example_args_dry_run tt eq_refl).
Defined.

(** X27. Without [--yes], a refused confirmation ends [attach] and
    [cleanup] before anything is written or deleted; the exit code is
    0, or 1 when the directory or the engine is missing. *)
Theorem refused_confirmation_changes_nothing
  {W : Type} (E : Engine W) (B : PyBuiltins) (C : Console) (args : Args) (s : W)
  (Hyes : arg_yes args = false)
  (Hno : forall question, confirm_action C question = false) :
  world (fst (cmd_attach E B C args s)) = s /\
  snd (cmd_attach E B C args s)
  = Ok (if path_exists E s (arg_directory args) && fst (exiftool_available C)
        then 0 else 1) /\
  world (fst (cmd_cleanup E B C args s)) = s /\
  unlinked (fst (cmd_cleanup E B C args s)) = [] /\
  snd (cmd_cleanup E B C args s)
  = Ok (if path_exists E s (arg_directory args)
           && (arg_no_verify args || fst (exiftool_available C))
        then 0 else 1).
Proof.
  split; [|split; [|split; [|split]]].
  - unfold cmd_attach.
    destruct (path_exists E s (arg_directory args)); cbn [negb];
      [|reflexivity].
    destruct (fst (exiftool_available C)); cbn [negb]; [|reflexivity].
    destruct (pairs _) as [|p0 ps]; [reflexivity|].
    destruct (arg_dry_run args); [reflexivity|].
    rewrite Hyes, Hno. reflexivity.
  - unfold cmd_attach.
    destruct (path_exists E s (arg_directory args)); cbn [negb andb];
      [|reflexivity].
    destruct (fst (exiftool_available C)); cbn [negb]; [|reflexivity].
    destruct (pairs _) as [|p0 ps]; [reflexivity|].
    destruct (arg_dry_run args); [reflexivity|].
    rewrite Hyes, Hno. reflexivity.
  - unfold cmd_cleanup.
    destruct (path_exists E s (arg_directory args)); cbn [negb];
      [|reflexivity].
    destruct (arg_no_verify args); cbn [negb andb].
    + destruct (pairs _) as [|p0 ps]; [reflexivity|].
      rewrite Hyes, Hno. reflexivity.
    + destruct (fst (exiftool_available C)); cbn [negb]; [|reflexivity].
      destruct (pairs _) as [|p0 ps]; [reflexivity|].
      rewrite Hyes, Hno. reflexivity.
  - unfold cmd_cleanup.
    destruct (path_exists E s (arg_directory args)); cbn [negb];
      [|reflexivity].
    destruct (arg_no_verify args); cbn [negb andb].
    + destruct (pairs _) as [|p0 ps]; [reflexivity|].
      rewrite Hyes, Hno. reflexivity.
    + destruct (fst (exiftool_available C)); cbn [negb]; [|reflexivity].
      destruct (pairs _) as [|p0 ps]; [reflexivity|].
      rewrite Hyes, Hno. reflexivity.
  - unfold cmd_cleanup.
    destruct (path_exists E s (arg_directory args)); cbn [negb andb];
      [|reflexivity].
    destruct (arg_no_verify args); cbn [negb andb orb].
    + destruct (pairs _) as [|p0 ps]; [reflexivity|].
      rewrite Hyes, Hno. reflexivity.
    + destruct (fst (exiftool_available C)); cbn [negb]; [|reflexivity].
      destruct (pairs _) as [|p0 ps]; [reflexivity|].
      rewrite Hyes, Hno. reflexivity.
Qed.

Lemma refused_confirmation_changes_nothing_witness :
  unlinked (fst (cmd_cleanup untagged_photo example_builtins declining_console
                   example_args_ask tt)) = [] /\
  snd (cmd_cleanup untagged_photo example_builtins declining_console
         example_args_ask tt) = Ok 0.
Proof.
  destruct (refused_confirmation_changes_nothing untagged_photo
              example_builtins declining_console example_args_ask tt
              eq_refl (fun _ => eq_refl))
    as (_ & _ & _ & U & K).
  split; [exact U | exact K].
Defined.





